(** * firecli.mark: the [gamaficer] converter

    A shallow embedding of [src/firecli/mark.py].  The command reads
    levelling observations from text files, looks every point up in the FIRE
    database and writes two GeoJSON files and a GNU Gama input file.

    Layout of the development:
    - [Py]: the Python built-ins the module calls (string methods, [float],
      [int], [sqrt], fixed-point formatting, [os.path.splitext]);
    - the data model, the exceptions and the effect monad;
    - the functions of [mark.py], under their own names;
    - sample data and the vocabulary for reading the trace of a run;
    - the properties. *)

From Stdlib Require Import ZArith Floats DecimalString Ascii.
From stdpp Require Import gmap strings sorting.

Set Warnings "-inexact-float,-clear-no-such-hyp".

(** ** Python built-ins

    A [string] stands for a Python [str] whose characters are the code points
    0..255, one [ascii] each.  A [float] is a binary64, as Python's. *)

Module Py.

Definition code (c : ascii) : N := N_of_ascii c.

(** [str.isspace] on one character (the code points below 256 for which
    [Py_UNICODE_ISSPACE] holds). *)
Definition isspace (c : ascii) : bool :=
  let n := code c in
  ((9 <=? n) && (n <=? 13) || (28 <=? n) && (n <=? 32) || (n =? 133) || (n =? 160))%N.

Definition isdigit (c : ascii) : bool :=
  let n := code c in ((48 <=? n) && (n <=? 57))%N.

Definition digit_val (c : ascii) : Z := Z.of_N (code c) - 48.

(** ASCII lower-casing of one character, as the case-insensitive matches of
    the number parser use it. *)
Definition lower (c : ascii) : ascii :=
  let n := code c in
  if ((65 <=? n) && (n <=? 90))%N then ascii_of_N (n + 32) else c.

Fixpoint lower_str (s : string) : string :=
  match s with
  | EmptyString => EmptyString
  | String c s' => String (lower c) (lower_str s')
  end.

Fixpoint mem_char (c : ascii) (chars : string) : bool :=
  match chars with
  | EmptyString => false
  | String d chars' => if Ascii.eqb c d then true else mem_char c chars'
  end.

(** [s.lstrip(chars)] *)
Fixpoint lstrip_chars (chars s : string) : string :=
  match s with
  | EmptyString => EmptyString
  | String c s' => if mem_char c chars then lstrip_chars chars s' else s
  end.

(** [s.lstrip()] *)
Fixpoint lstrip (s : string) : string :=
  match s with
  | EmptyString => EmptyString
  | String c s' => if isspace c then lstrip s' else s
  end.

(** [s.rstrip()] *)
Definition rstrip (s : string) : string := String.rev (lstrip (String.rev s)).

(** [s.strip()] *)
Definition strip (s : string) : string := rstrip (lstrip s).

(** [s.split()]: the maximal runs of non-blank characters, in order.
    [cur] is the run being read, last character first. *)
Fixpoint split_go (cur s : string) : list string :=
  match s with
  | EmptyString =>
      match cur with EmptyString => [] | _ => [String.rev cur] end
  | String c s' =>
      if isspace c then
        match cur with
        | EmptyString => split_go EmptyString s'
        | _ => String.rev cur :: split_go EmptyString s'
        end
      else split_go (String c cur) s'
  end.

Definition split (s : string) : list string := split_go EmptyString s.

(** [s.startswith(pre)] *)
Fixpoint startswith (s pre : string) : bool :=
  match pre, s with
  | EmptyString, _ => true
  | String _ _, EmptyString => false
  | String p pre', String c s' => Ascii.eqb c p && startswith s' pre'
  end.

(** [s.endswith(suf)] *)
Definition endswith (s suf : string) : bool :=
  startswith (String.rev s) (String.rev suf).

(** [s[:-k]] for a positive [k] *)
Definition drop_last (k : nat) (s : string) : string :=
  String.substring 0 (String.length s - k) s.

(** [s.replace(a, b)] for one-character [a] and [b] *)
Fixpoint replace_char (a b : ascii) (s : string) : string :=
  match s with
  | EmptyString => EmptyString
  | String c s' => String (if Ascii.eqb c a then b else c) (replace_char a b s')
  end.

(** [s.rfind(c)] for a one-character [c]: the index of its last occurrence,
    -1 when there is none. *)
Fixpoint rfind_go (c : ascii) (s : string) (i : Z) (found : Z) : Z :=
  match s with
  | EmptyString => found
  | String d s' => rfind_go c s' (i + 1) (if Ascii.eqb d c then i else found)
  end.

Definition rfind (c : ascii) (s : string) : Z := rfind_go c s 0 (-1).

(** [s[i:j]] for indices within range *)
Definition slice (i j : Z) (s : string) : string :=
  String.substring (Z.to_nat i) (Z.to_nat (j - i)) s.

(** [os.path.splitext(p)[0]] of [posixpath]: the extension starts at the last
    dot of the last path component, unless that component has only dots to
    the left of it. *)
Fixpoint splitext_scan (n : nat) (p : string) (filenameIndex dotIndex : Z) : string :=
  match n with
  | O => p
  | S n' =>
      if (filenameIndex <? dotIndex)%Z then
        if String.eqb (slice filenameIndex (filenameIndex + 1) p) "."
        then splitext_scan n' p (filenameIndex + 1) dotIndex
        else slice 0 dotIndex p
      else p
  end.

Definition splitext_root (p : string) : string :=
  let sepIndex := rfind "/"%char p in
  let dotIndex := rfind "."%char p in
  if (sepIndex <? dotIndex)%Z
  then splitext_scan (S (String.length p)) p (sepIndex + 1) dotIndex
  else p.

(** *** Numbers *)

Local Open Scope Z_scope.

(** [str(n)] of an [int] *)
Definition str_int (n : Z) : string := NilZero.string_of_int (Z.to_int n).

(** Reads a run of decimal digits: its value on top of [acc], how many digits
    were read, and the rest of the string. *)
Fixpoint take_digits (s : string) (acc : Z) (n : Z) : Z * Z * string :=
  match s with
  | String c s' =>
      if isdigit c then take_digits s' (10 * acc + digit_val c) (n + 1)
      else (acc, n, s)
  | EmptyString => (acc, n, s)
  end.

(** An optional sign: [true] for a minus. *)
Definition take_sign (s : string) : bool * string :=
  match s with
  | String "-" s' => (true, s')
  | String "+" s' => (false, s')
  | _ => (false, s)
  end.

(** Underscores in a numeric literal of [float]: each stands between two
    digits; the result is the literal without them. *)
Fixpoint drop_underscores (prev : ascii) (s : string) : option string :=
  match s with
  | EmptyString => if Ascii.eqb prev "_" then None else Some EmptyString
  | String c s' =>
      if Ascii.eqb c "_" then
        if isdigit prev then drop_underscores c s' else None
      else if Ascii.eqb prev "_" && negb (isdigit c) then None
      else String c <$> drop_underscores c s'
  end.

(** The binary64 nearest to [m * 10^e] (ties to even), [m > 0]; beyond the
    largest finite value the result is an infinity.  Values that are out of
    range by their size alone are answered without computing the power. *)
Definition round_decimal (neg : bool) (m e : Z) : float :=
  let bits := Z.log2 m + 1 in
  if (m <=? 0)%Z then SF2Prim (S754_zero neg)
  else if (0 <=? e)%Z then
    if (1030 <? 3 * e)%Z then SF2Prim (S754_infinity neg)
    else SF2Prim (binary_normalize prec emax (if neg then - (m * 10 ^ e) else m * 10 ^ e) 0 neg)
  else if (bits + 3 * e <? -1080)%Z then SF2Prim (S754_zero neg)
  else
    let '(q, e', l) := SFdiv_core_binary prec emax m 0 (10 ^ (- e)) 0 in
    SF2Prim (binary_round_aux prec emax neg q e' l).

(** The decimal part of the grammar of [float]:
    digits [. digits] [(e|E) [sign] digits], with a digit in the mantissa. *)
Definition parse_decimal (neg : bool) (s : string) : option float :=
  let '(ip, ni, s1) := take_digits s 0 0 in
  let '(m, nf, s2) :=
    match s1 with
    | String "." s1' => take_digits s1' ip 0
    | _ => (ip, 0%Z, s1)
    end in
  if (ni + nf =? 0)%Z then None
  else
    match s2 with
    | EmptyString => Some (round_decimal neg m (- nf))
    | String c s3 =>
        if Ascii.eqb (lower c) "e" then
          let '(eneg, s4) := take_sign s3 in
          let '(ev, ne, s5) := take_digits s4 0 0 in
          if (ne =? 0)%Z then None
          else
            match s5 with
            | EmptyString => Some (round_decimal neg m ((if eneg then - ev else ev) - nf))
            | _ => None
            end
        else None
    end.

(** [float(s)] of a string; [None] is a [ValueError]. *)
Definition float_of_str (s : string) : option float :=
  s' ← drop_underscores "000"%char (strip s);
  let '(neg, body) := take_sign s' in
  match parse_decimal neg body with
  | Some x => Some x
  | None =>
      let w := lower_str body in
      if String.eqb w "inf" || String.eqb w "infinity"
      then Some (if neg then neg_infinity else infinity)
      else if String.eqb w "nan" then Some nan
      else None
  end.

(** The digits of an [int] literal: a digit, then digits each preceded by at
    most one underscore. *)
Fixpoint int_digits (s : string) (acc : Z) (prev_us : bool) : option Z :=
  match s with
  | EmptyString => if prev_us then None else Some acc
  | String c s' =>
      if isdigit c then int_digits s' (10 * acc + digit_val c) false
      else if Ascii.eqb c "_" then
        if prev_us then None else int_digits s' acc true
      else None
  end.

(** [int(s)] of a string, base 10; [None] is a [ValueError].  The limit
    that recent interpreters put on the number of digits is left out. *)
Definition int_of_str (s : string) : option Z :=
  let '(neg, body) := take_sign (strip s) in
  match body with
  | String c _ =>
      if isdigit c then
        (fun v => if neg then (- v)%Z else v) <$> int_digits body 0 false
      else None
  | EmptyString => None
  end.

(** [float(n)] of an [int], also the conversion of an [int] operand of a
    float operation: the nearest binary64, [None] (an [OverflowError]) when
    that is beyond the largest finite value. *)
Definition float_of_int (n : Z) : option float :=
  match binary_normalize prec emax n 0 false with
  | S754_infinity _ => None
  | x => Some (SF2Prim x)
  end.

(** [math.sqrt]: [None] is the [ValueError] of a domain error. *)
Definition sqrt (x : float) : option float :=
  match Prim2SF x with
  | S754_finite true _ _ | S754_infinity true => None
  | _ => Some (PrimFloat.sqrt x)
  end.

(** *** Fixed-point formatting *)

Definition digit_char (d : Z) : ascii := ascii_of_N (Z.to_N (48 + d)).

(** The [p] low decimal digits of [r], most significant first. *)
Fixpoint frac_digits (p : nat) (r : Z) : string :=
  match p with
  | O => EmptyString
  | S p' => frac_digits p' (r / 10) +:+ String (digit_char (r mod 10)) EmptyString
  end.

(** [num / den] rounded to the nearest integer, ties to even ([den > 0]). *)
Definition div_half_even (num den : Z) : Z :=
  let q := (num / den)%Z in
  let r := (num mod den)%Z in
  match (2 * r ?= den)%Z with
  | Lt => q
  | Gt => (q + 1)%Z
  | Eq => if Z.even q then q else (q + 1)%Z
  end.

(** [m * 2^e * 10^p] rounded to the nearest integer, ties to even. *)
Definition scaled_digits (p : nat) (m : positive) (e : Z) : Z :=
  let num := (Z.pos m * 10 ^ Z.of_nat p)%Z in
  if (0 <=? e)%Z then (num * 2 ^ e)%Z else div_half_even num (2 ^ (- e)).

Definition fixed_digits (p : nat) (n : Z) : string :=
  let ip := str_int (n / 10 ^ Z.of_nat p) in
  match p with
  | O => ip
  | _ => ip +:+ "." +:+ frac_digits p (n mod 10 ^ Z.of_nat p)
  end.

Definition sign_str (plus neg : bool) : string :=
  if neg then "-" else if plus then "+" else "".

(** [format(x, ".pf")], and [format(x, "+.pf")] when [plus] is set. *)
Definition format_f (plus : bool) (p : nat) (x : float) : string :=
  match Prim2SF x with
  | S754_nan => sign_str plus false +:+ "nan"
  | S754_infinity s => sign_str plus s +:+ "inf"
  | S754_zero s => sign_str plus s +:+ fixed_digits p 0
  | S754_finite s m e => sign_str plus s +:+ fixed_digits p (scaled_digits p m e)
  end.

(** Neither an infinity nor a NaN. *)
Definition finite (x : float) : bool :=
  match Prim2SF x with
  | S754_zero _ | S754_finite _ _ _ => true
  | _ => false
  end.

(** The sign bit of a float; a NaN is formatted without a sign. *)
Definition signbit (x : float) : bool :=
  match Prim2SF x with
  | S754_zero s | S754_infinity s | S754_finite s _ _ => s
  | S754_nan => false
  end.

(** *** [repr] of a float

    The shortest decimal that [float] reads back as the same number, the
    closest one to it when several are as short, laid out as [repr] does:
    exponent form outside [1e-4, 1e16). *)

(** [true] when [a / b >= 10^k] ([a], [b] positive). *)
Definition ge_pow10 (a b k : Z) : bool :=
  if 0 <=? k then 10 ^ k * b <=? a else b <=? a * 10 ^ (- k).

Fixpoint dec_exp_go (fuel : nat) (a b k : Z) : Z :=
  match fuel with
  | O => k
  | S fuel' => if ge_pow10 a b k then dec_exp_go fuel' a b (k + 1) else k
  end.

(** The [k] with [10^(k-1) <= a / b < 10^k], from an estimate by the sizes
    in bits that is at most that [k]. *)
Definition dec_exp (a b : Z) : Z :=
  dec_exp_go 8 a b ((Z.log2 a - Z.log2 b - 1) * 30103 / 100000 - 1).

Fixpoint strip_zeros (fuel : nat) (d : Z) : Z :=
  match fuel with
  | O => d
  | S fuel' => if (0 <? d) && (d mod 10 =? 0) then strip_zeros fuel' (d / 10) else d
  end.

(** The [p]-digit decimals next to [a / b], below and above, and which of
    them reads back as [x]; [None] when neither does. *)
Definition repr_try (x : float) (a b k : Z) (p : Z) : option (Z * Z) :=
  let '(sa, sb) := if k <=? p then (a * 10 ^ (p - k), b) else (a, b * 10 ^ (k - p)) in
  let lo := sa / sb in
  let r := sa mod sb in
  let hi := lo + 1 in
  let back d := PrimFloat.eqb (round_decimal false d (k - p)) x in
  let lo_first :=
    match 2 * r ?= sb with
    | Lt => true
    | Gt => false
    | Eq => Z.even lo
    end in
  let pick d := if d =? 10 ^ p then (1, k + 1) else (strip_zeros 20 d, k) in
  match back lo, back hi with
  | true, true => Some (pick (if lo_first then lo else hi))
  | true, false => Some (pick lo)
  | false, true => Some (pick hi)
  | false, false => None
  end.

Fixpoint repr_search (fuel : nat) (x : float) (a b k : Z) (p : Z) : Z * Z :=
  match fuel with
  | O => (0, k)
  | S fuel' =>
      match repr_try x a b k p with
      | Some r => r
      | None => repr_search fuel' x a b k (p + 1)
      end
  end.

(** The shortest digits of the positive float [m * 2^e], as an integer
    without trailing zeros, and the position of the decimal point: the
    value is [0.d1d2... * 10^decpt]. *)
Definition shortest_digits (m : positive) (e : Z) : Z * Z :=
  let '(a, b) := if 0 <=? e then (Z.pos m * 2 ^ e, 1) else (Z.pos m, 2 ^ (- e)) in
  repr_search 17 (SF2Prim (S754_finite false m e)) a b (dec_exp a b) 1.

Fixpoint zeros (n : nat) : string :=
  match n with
  | O => EmptyString
  | S n' => String "0" (zeros n')
  end.

Definition exp_str (e : Z) : string :=
  let a := str_int (Z.abs e) in
  (if e <? 0 then "-" else "+") +:+ (if Z.abs e <? 10 then "0" else "") +:+ a.

Definition repr_layout (digits : string) (decpt : Z) : string :=
  let n := Z.of_nat (String.length digits) in
  if (decpt <=? -4) || (16 <? decpt) then
    String.substring 0 1 digits
    +:+ (if 1 <? n then "." +:+ String.substring 1 (String.length digits - 1) digits else "")
    +:+ "e" +:+ exp_str (decpt - 1)
  else if decpt <=? 0 then "0." +:+ zeros (Z.to_nat (- decpt)) +:+ digits
  else if decpt <? n then
    String.substring 0 (Z.to_nat decpt) digits +:+ "."
    +:+ String.substring (Z.to_nat decpt) (String.length digits - Z.to_nat decpt) digits
  else digits +:+ zeros (Z.to_nat (decpt - n)) +:+ ".0".

(** [repr(x)], which is also [str(x)] and [format(x, "")]. *)
Definition repr_float (x : float) : string :=
  match Prim2SF x with
  | S754_nan => "nan"
  | S754_infinity s => sign_str false s +:+ "inf"
  | S754_zero s => sign_str false s +:+ "0.0"
  | S754_finite s m e =>
      let '(d, decpt) := shortest_digits m e in
      sign_str false s +:+ repr_layout (str_int d) decpt
  end.

(** *** Numbers as Python objects *)

Inductive pynum :=
| PyInt (n : Z)
| PyFloat (x : float).

(** [str(v)], [format(v, "")] *)
Definition str_num (v : pynum) : string :=
  match v with
  | PyInt n => str_int n
  | PyFloat x => repr_float x
  end.

(** [float(v)]; [None] is an [OverflowError]. *)
Definition float_of_num (v : pynum) : option float :=
  match v with
  | PyInt n => float_of_int n
  | PyFloat x => Some x
  end.

End Py.

Import Py.

(** ** Data model *)

(** A text with double quotes, written with apostrophes in their place:
    every apostrophe of [s] stands for the character 34. *)
Definition dq (s : string) : string := replace_char "'"%char "034"%char s.

Definition nl : string := String "010"%char EmptyString.

(** A row of the srid table ([fireapi.model.Srid]): [name], [sridid]. *)
Record Srid := {
  srid_name : string;
  srid_sridid : Z;
}.

(** A row of a point's coordinate history ([fireapi.model.Koordinat]):
    the reference system, the end of the registration ([None] while the
    row is the current one), the value and its uncertainty. *)
Record Koordinat := {
  sridid : Z;
  registreringtil : option Z;
  z : pynum;
  sz : pynum;
}.

(** A point information row with what [mark.py] reads through it
    ([punktinfo.punktid], [punktinfo.punkt.koordinater]). *)
Record PunktInformation := {
  punktid : string;
  koordinater : list Koordinat;
}.

(** What the module raises or lets through. *)
Inductive exn :=
| AssertionError (msg : string)
| IndexError
| KeyError (key : string)
| ValueError
| OverflowError
| AttributeError
| TypeError
| SyntaxError
| NameError
| OSError
| SystemExit (status : Z).

(** The collaborators of the module:
    - [hent_srider]: [firedb.hent_srider()];
    - [punktinformation_first]: the first row of the query of
      [punkt_information] for an ident, [None] when the query is empty;
    - [hent_geometri_objekt]: [str(geom.geometri)] of the geometry object of a
      point id, [None] when the lookup raises [NoResultFound];
    - [py_eval]: Python's [eval] on the text [punkt_geometri] builds, giving
      a sequence of numbers or raising;
    - [open_fejl]: the exception that [open(path, "wt")] raises for a path
      ([OSError] for a directory, a missing directory, an empty name or a
      file that may not be written), [None] when the file is opened. *)
Record omverden := {
  hent_srider : list Srid;
  punktinformation_first : string -> option PunktInformation;
  hent_geometri_objekt : string -> option string;
  py_eval : string -> exn + list pynum;
  open_fejl : string -> option exn;
}.

(** A [dict] with [str] keys, in insertion order. *)
Definition dict (V : Type) : Type := list (string * V).

Fixpoint dict_get {V} (d : dict V) (k : string) : option V :=
  match d with
  | [] => None
  | (k', v) :: d' => if String.eqb k' k then Some v else dict_get d' k
  end.

(** [d[k] = v] *)
Fixpoint dict_set {V} (d : dict V) (k : string) (v : V) : dict V :=
  match d with
  | [] => [(k, v)]
  | (k', v') :: d' =>
      if String.eqb k' k then (k', v) :: d' else (k', v') :: dict_set d' k v
  end.

(** The value [eksporter] stores per ident is the tuple
    [(geo[0], geo[1], H, sH)]; [obs_feature] also provides for a value that
    is [None]. *)
Definition punktdict : Type := dict (option (list pynum)).

(** The feature of a point: [properties] [id], [H], [sH] and the
    [coordinates] of its [Point] geometry. *)
Record PunktFeature := {
  pf_id : string;
  pf_H : pynum;
  pf_sH : pynum;
  pf_coordinates : pynum * pynum;
}.

(** The feature of an observation: [properties] [fra], [til], [dist],
    [dH], [setups], [journal] and the [coordinates] of its [LineString]
    geometry. *)
Record ObsFeature := {
  fra : string;
  til : string;
  dist : float;
  dH : float;
  setups : Z;
  journal : string;
  coordinates : (float * float) * (float * float);
}.

(** The object handed to [json.dump]: [type] is [FeatureCollection] and
    [Features] is one of the two lists. *)
Inductive FeatureCollection :=
| PunktFeatures (features : list PunktFeature)
| ObsFeatures (features : list ObsFeature).

(** ** Effects

    What a run does to the outside, in order: what it prints
    ([firecli.print]), the files it opens for writing, the text it writes
    to them and the documents it dumps into them.  An [Open] event is a
    file that [open] has created or emptied; a call of [open] that raises
    leaves no event.  Writing to an open file and [json.dump] are taken to
    succeed. *)
Inductive event :=
| Print (msg : string)
| Open (path : string)
| Write (path : string) (text : string)
| Dump (path : string) (doc : FeatureCollection).

(** A pure computation that may raise. *)
Definition R (A : Type) : Type := exn + A.

(** A computation with effects: its events, then the exception that ended
    it or its result. *)
Definition M (A : Type) : Type := list event * (exn + A).

Definition ret {A} (a : A) : M A := ([], inr a).

Definition raise {A} (e : exn) : M A := ([], inl e).

Definition emit (ev : event) : M unit := ([ev], inr tt).

Definition bind {A B} (m : M A) (k : A -> M B) : M B :=
  match m with
  | (tr, inl e) => (tr, inl e)
  | (tr, inr a) => let '(tr', r) := k a in (tr ++ tr', r)
  end.

Definition lift {A} (r : R A) : M A := ([], r).

Notation "'do' x <- m ; k" := (bind m (fun x => k))
  (at level 10, x pattern, m at level 100, k at level 200).
Notation "'do_' m ; k" := (bind m (fun _ => k))
  (at level 10, m at level 100, k at level 200).

Definition rbind {A B} (r : R A) (k : A -> R B) : R B :=
  match r with
  | inl e => inl e
  | inr a => k a
  end.

Notation "'try' x <- r ; k" := (rbind r (fun x => k))
  (at level 10, x pattern, r at level 100, k at level 200).

(** [None] raises [e]. *)
Definition or_raise {A} (e : exn) (o : option A) : R A :=
  match o with
  | Some a => inr a
  | None => inl e
  end.

(** A [for] loop over a list. *)
Fixpoint for_each {A} (l : list A) (body : A -> M unit) : M unit :=
  match l with
  | [] => ret tt
  | a :: l' => do_ body a; for_each l' body
  end.

(** A generator, as the outcomes of its steps: every step yields a value or
    raises, and a consumer stops at the first one that raises. *)
Definition generator (A : Type) : Type := list (R A).

(** [list(g)] *)
Fixpoint list_of {A} (g : generator A) : R (list A) :=
  match g with
  | [] => inr []
  | r :: g' => try a <- r; try l <- list_of g'; inr (a :: l)
  end.

(** [for a in g: body(a)] *)
Fixpoint for_gen {A} (g : generator A) (body : A -> M unit) : M unit :=
  match g with
  | [] => ret tt
  | r :: g' => do a <- lift r; do_ body a; for_gen g' body
  end.

(** [l[i]] *)
Definition index {A} (l : list A) (i : nat) : R A := or_raise IndexError (l !! i).

Definition events {A} (m : M A) : list event := m.1.

Definition outcome {A} (m : M A) : exn + A := m.2.

(** ** The functions of [mark.py] *)

Open Scope Z_scope.

(** [with open(path, "wt") as f: blok]: when [open] raises, the block is
    not entered and the exception ends the statement; otherwise the file
    is created or emptied and the block runs. *)
Definition with_open {A} (w : omverden) (path : string) (blok : M A) : M A :=
  match open_fejl w path with
  | Some e => raise e
  | None => do_ emit (Open path); blok
  end.

(** An input file as [click.File] hands it over: its [name] and the lines
    that iterating over it gives. *)
Record fil := {
  name : string;
  lines : list string;
}.

(** [hent_sridid(db, srid)]: the [sridid] of the first row called [srid],
    0 when there is none. *)
Fixpoint hent_sridid (srider : list Srid) (srid : string) : Z :=
  match srider with
  | [] => 0
  | s :: srider' =>
      if String.eqb (srid_name s) srid then srid_sridid s
      else hent_sridid srider' srid
  end.

(** The loop of [punkt_kote] over [punktinfo.punkt.koordinater]. *)
Fixpoint punkt_kote_loop (koords : list Koordinat) (koteid : Z) : option Koordinat :=
  match koords with
  | [] => None
  | koord :: koords' =>
      if negb (sridid koord =? koteid) then punkt_kote_loop koords' koteid
      else
        match registreringtil koord with
        | None => Some koord
        | Some _ => punkt_kote_loop koords' koteid
        end
  end.

(** [punkt_kote(punktinfo, koteid)]; reading [punktinfo.punkt] off [None]
    is an [AttributeError]. *)
Definition punkt_kote (punktinfo : option PunktInformation) (koteid : Z)
  : R (option Koordinat) :=
  try pinfo <- or_raise AttributeError punktinfo;
  inr (punkt_kote_loop (koordinater pinfo) koteid).

(** [punkt_information(ident)]: the first row of the query, or [None]; the
    query of [first()] does not raise [NoResultFound], so the handler of
    the function is never entered. *)
Definition punkt_information (w : omverden) (ident : string)
  : M (option PunktInformation) :=
  ret (punktinformation_first w ident).

(** [punkt_geometri(ident, punktinfo)] *)
Definition punkt_geometri (w : omverden) (ident : string)
    (punktinfo : option PunktInformation) : M (list pynum) :=
  do pinfo <- lift (or_raise AttributeError punktinfo);
  match hent_geometri_objekt w (punktid pinfo) with
  | None =>
      do_ emit (Print ("Error! Geometry for " +:+ ident +:+ " not found!"));
      raise (SystemExit 1)
  | Some geometri =>
      do geo <- lift (py_eval w (replace_char " " "," (lstrip_chars "POINT " geometri)));
      if (length geo =? 2)%nat then ret geo
      else raise (AssertionError ("Bad geometry format: " +:+ geometri))
  end.

(** One step of the generator [punkt_feature]: the feature of an item of
    the dict. *)
Definition punkt_feature_1 (item : string * option (list pynum)) : R PunktFeature :=
  let '(key, val) := item in
  try val <- or_raise TypeError val;
  try H <- index val 2;
  try sH <- index val 3;
  try v0 <- index val 0;
  try v1 <- index val 1;
  inr {| pf_id := key; pf_H := H; pf_sH := sH; pf_coordinates := (v0, v1) |}.

(** [punkt_feature(punkter)] *)
Definition punkt_feature (punkter : punktdict) : generator PunktFeature :=
  map punkt_feature_1 punkter.

(** [float(v[i])] *)
Definition float_at (v : list pynum) (i : nat) : R float :=
  try x <- index v i;
  or_raise OverflowError (float_of_num x).

(** The repair of [obs_feature]: a token that ends in [-557] loses its last
    four characters. *)
Definition reparer (tok : string) : string :=
  if endswith tok "-557" then drop_last 4 tok else tok.

(** The point [obs_feature] puts in the place of a value that is [None]. *)
Definition kattegat : list pynum := [PyInt 11; PyInt 56; PyInt 0].

(** [punkter[key]], then the replacement of [None]. *)
Definition obs_punkt (punkter : punktdict) (key : string) : R (list pynum) :=
  try val <- or_raise (KeyError key) (dict_get punkter key);
  inr (match val with
       | None => kattegat
       | Some v => v
       end).

(** One step of the generator [obs_feature]: the feature of an
    observation line. *)
Definition obs_feature_1 (punkter : punktdict) (obs : string) : R ObsFeature :=
  match split obs with
  | [d0; d1; d2; d3; d4; d5; d6; d7; d8] =>
      try fra_ <- or_raise (KeyError d0) (dict_get punkter d0);
      try til_ <- or_raise (KeyError d1) (dict_get punkter d1);
      let fra_ := match fra_ with None => kattegat | Some v => v end in
      let til_ := match til_ with None => kattegat | Some v => v end in
      let d5 := reparer d5 in
      try dist_ <- or_raise ValueError (float_of_str d4);
      try dH_ <- or_raise ValueError (float_of_str d5);
      try setups_ <- or_raise ValueError (int_of_str d8);
      try f0 <- float_at fra_ 0;
      try f1 <- float_at fra_ 1;
      try t0 <- float_at til_ 0;
      try t1 <- float_at til_ 1;
      inr {| fra := d0; til := d1; dist := dist_; dH := dH_;
             setups := setups_; journal := d6;
             coordinates := ((f0, f1), (t0, t1)) |}
  | _ => inl (AssertionError ("Malformet observation: " +:+ obs))
  end.

(** [obs_feature(punkter, observationer)] *)
Definition obs_feature (punkter : punktdict) (observationer : list string)
  : generator ObsFeature :=
  map (obs_feature_1 punkter) observationer.

(** *** The XML writers

    A file object is named by the path it was opened with.  [writelines] of
    a [str] writes its characters one after the other; it is recorded as
    one write of the text. *)

Definition xml_preamble_text : string :=
  dq "<?xml version='1.0' ?><gama-local>" +:+ nl +:+
  dq "<network angles='left-handed' axes-xy='en' epoch='0.0'>" +:+ nl +:+
  "<parameters" +:+ nl +:+
  dq "    algorithm='gso' angles='400' conf-pr='0.95'" +:+ nl +:+
  dq "    cov-band='0' ellipsoid='grs80' latitude='55.7' sigma-act='apriori'" +:+ nl +:+
  dq "    sigma-apr='1.0' tol-abs='1000.0'" +:+ nl +:+
  dq "    update-constrained-coordinates='no'" +:+ nl +:+
  "/>" +:+ nl +:+ nl.

Definition xml_preamble (fil : string) : M unit :=
  emit (Write fil xml_preamble_text).

Definition xml_description_text (desc : string) : string :=
  "<description>" +:+ nl +:+ desc +:+ nl +:+ "</description>" +:+ nl
  +:+ "<points-observations>" +:+ nl +:+ nl.

Definition xml_description (fil : string) (desc : string) : M unit :=
  emit (Write fil (xml_description_text desc)).

Definition xml_fixed_points_text : string :=
  nl +:+ nl +:+ "<!-- Fixed -->" +:+ nl +:+ nl.

Definition xml_fixed_points (fil : string) : M unit :=
  emit (Write fil xml_fixed_points_text).

Definition xml_adjusted_points_text : string :=
  nl +:+ nl +:+ "<!-- Adjusted -->" +:+ nl +:+ nl.

Definition xml_adjusted_points (fil : string) : M unit :=
  emit (Write fil xml_adjusted_points_text).

Definition xml_observations_text : string :=
  nl +:+ nl +:+ "<height-differences>" +:+ nl +:+ nl.

Definition xml_observations (fil : string) : M unit :=
  emit (Write fil xml_observations_text).

Definition xml_postamble_text : string :=
  nl +:+ "</height-differences></points-observations></network></gama-local>".

Definition xml_postamble (fil : string) : M unit :=
  emit (Write fil xml_postamble_text).

(** The text [xml_point] writes for a key and the [z] of its value. *)
Definition xml_point_text (fix_ : bool) (key : string) (z_ : pynum) : string :=
  let fixadj := if fix_ then dq "fix='Z'" else dq "adj='z'" in
  "<point " +:+ fixadj +:+ dq " id='" +:+ key +:+ dq "' z='" +:+ str_num z_
  +:+ dq "'/>" +:+ nl.

(** [xml_point(fil, fix, key, val)] *)
Definition xml_point (fil : string) (fix_ : bool) (key : string)
    (val : option (list pynum)) : M unit :=
  do val <- lift (or_raise TypeError val);
  do z_ <- lift (index val 2);
  emit (Write fil (xml_point_text fix_ key z_)).

(** The [stdev] of [xml_obs]:
    [sqrt(dist)*0.6+0.01*obs['properties']['setups']] with
    [dist = obs['properties']['dist'] / 1000.0]. *)
Definition xml_obs_stdev (obs : ObsFeature) : R float :=
  let dist_ := (dist obs / 1000)%float in
  try s <- or_raise ValueError (Py.sqrt dist_);
  try n <- or_raise OverflowError (float_of_int (setups obs));
  inr (s * 0.6 + 0.01 * n)%float.

Definition xml_obs_text (obs : ObsFeature) (stdev : float) : string :=
  dq "<dh from='" +:+ fra obs +:+ dq "' to='" +:+ til obs +:+ dq "' "
  +:+ dq "val='" +:+ format_f true 5 (dH obs)
  +:+ dq "' dist='" +:+ format_f false 5 (dist obs / 1000)%float
  +:+ dq "' stdev='" +:+ format_f false 2 stdev +:+ dq "'/>" +:+ nl.

(** [xml_obs(fil, obs)] *)
Definition xml_obs (fil : string) (obs : ObsFeature) : M unit :=
  do stdev <- lift (xml_obs_stdev obs);
  emit (Write fil (xml_obs_text obs stdev)).

(** *** [eksporter] *)

(** [sorted(punkter)] *)
Definition sorted (punkter : gset string) : list string :=
  merge_sort String.le (elements punkter).

(** The body of the first loop of [eksporter], for one ident. *)
Definition eksporter_punkt (w : omverden) (koteid : Z) (punktinfo : punktdict)
    (ident : string) : M punktdict :=
  do pinfo <- punkt_information w ident;
  do geo <- punkt_geometri w ident pinfo;
  do kote <- lift (punkt_kote pinfo koteid);
  let '(H, sH) :=
    match kote with
    | None => (PyInt 0, PyInt 0)
    | Some kote => (z kote, sz kote)
    end in
  do g0 <- lift (index geo 0);
  do g1 <- lift (index geo 1);
  ret (dict_set punktinfo ident (Some [g0; g1; H; sH])).

(** The first loop of [eksporter]: the dict of the points. *)
Fixpoint eksporter_punkter (w : omverden) (koteid : Z) (idents : list string)
    (punktinfo : punktdict) : M punktdict :=
  match idents with
  | [] => ret punktinfo
  | ident :: idents' =>
      do punktinfo' <- eksporter_punkt w koteid punktinfo ident;
      eksporter_punkter w koteid idents' punktinfo'
  end.

(** The body of the [with] block of [eksporter] that writes the Gama
    file. *)
Definition gama_blok (output : string) (punktinfo : punktdict)
    (observationer : list string) : M unit :=
  do_ xml_preamble output;
  do_ xml_description output "bla bla bla";
  do_ xml_fixed_points output;
  do_ for_each punktinfo (fun '(key, val) =>
        if startswith key "G." then xml_point output true key val else ret tt);
  do_ xml_adjusted_points output;
  do_ for_each punktinfo (fun '(key, val) =>
        if negb (startswith key "G.") then xml_point output false key val else ret tt);
  do_ xml_observations output;
  do_ for_gen (obs_feature punktinfo observationer) (xml_obs output);
  xml_postamble output.

(** The [with] statement of [eksporter] that writes the Gama file. *)
Definition eksporter_gama (w : omverden) (output : string) (punktinfo : punktdict)
    (observationer : list string) : M unit :=
  with_open w output (gama_blok output punktinfo observationer).

(** [eksporter(output, observationer, punkter, koteid)] *)
Definition eksporter (w : omverden) (output : string) (observationer : list string)
    (punkter : gset string) (koteid : Z) : M unit :=
  do punktinfo <- eksporter_punkter w koteid (sorted punkter) [];
  do_ with_open w "punkter.geojson" (
        do features <- lift (list_of (punkt_feature punktinfo));
        emit (Dump "punkter.geojson" (PunktFeatures features)));
  do_ with_open w "observationer.geojson" (
        do features <- lift (list_of (obs_feature punktinfo observationer));
        emit (Dump "observationer.geojson" (ObsFeatures features)));
  eksporter_gama w output punktinfo observationer.

(** *** [gamaficer] *)

(** What the reading loop of [gamaficer] has built so far:
    [observationer] and [punkter]. *)
Definition laest : Type := list string * gset string.

(** The body of the reading loop for one line.  [line[0]] of an empty line
    is an [IndexError]. *)
Definition gamaficer_linje (st : laest) (line : string) : R laest :=
  let '(observationer, punkter) := st in
  match line with
  | EmptyString => inl IndexError
  | String c _ =>
      if negb (Ascii.eqb "#" c) then inr st
      else
        let line := strip (lstrip_chars "#" line) in
        match split line with
        | [t0; t1; _; _; _; _; _; _; _] =>
            inr (observationer ++ [line], {[t1]} ∪ ({[t0]} ∪ punkter))
        | _ => inl (AssertionError ("Malformed input line: " +:+ line))
        end
  end.

(** The lines of one file: the state when the loop ends, and the exception
    that ended it, if one did. *)
Fixpoint gamaficer_linjer (st : laest) (ls : list string) : laest * option exn :=
  match ls with
  | [] => (st, None)
  | line :: ls' =>
      match gamaficer_linje st line with
      | inl e => (st, Some e)
      | inr st' => gamaficer_linjer st' ls'
      end
  end.

(** The files, one after the other. *)
Fixpoint gamaficer_filer (st : laest) (filnavne : list fil) : laest * option exn :=
  match filnavne with
  | [] => (st, None)
  | f :: filnavne' =>
      match gamaficer_linjer st (lines f) with
      | (st', None) => gamaficer_filer st' filnavne'
      | (st', Some e) => (st', Some e)
      end
  end.

Definition fejl_ved_laesning : string :=
  "Fejl ved l" +:+ String "230"%char "sning af fil".

(** The [try] statement of [gamaficer]: the lists as the loop left them.
    Both handlers print and then build a [click.Abort] that they do not
    raise, so the statement always ends normally. *)
Definition gamaficer_laes (filnavne : list fil) : M laest :=
  let '(st, e) := gamaficer_filer ([], ∅) filnavne in
  do_ match e with
      | None => ret tt
      | Some (AssertionError msg) => emit (Print msg)
      | Some _ => emit (Print fejl_ved_laesning)
      end;
  ret st.

(** The name of the output file when [-o] is not given. *)
Definition gamaficer_output (filnavne : list fil) (output : string) : R string :=
  if String.eqb output "" then
    try f <- index filnavne 0;
    if String.eqb (name f) "<stdin>" then inr "-"
    else inr (splitext_root (name f) +:+ ".xml")
  else inr output.

(** [gamaficer(filnavne, output)] *)
Definition gamaficer (w : omverden) (filnavne : list fil) (output : string) : M unit :=
  do output <- lift (gamaficer_output filnavne output);
  do st <- gamaficer_laes filnavne;
  let '(observationer, punkter) := st in
  let dvr90 := hent_sridid (hent_srider w) "EPSG:5799" in
  if dvr90 =? 0
  then raise (AssertionError "DVR90 (EPSG:5799) ikke fundet i srid-tabel")
  else eksporter w output observationer punkter dvr90.

(** ** Sample data

    A small database, an [eval] for the geometry texts it holds, and input
    files, to run the functions on. *)

(** The fields of [s] between commas. *)
Fixpoint split_komma (cur s : string) : list string :=
  match s with
  | EmptyString => [String.rev cur]
  | String c s' =>
      if Ascii.eqb c "," then String.rev cur :: split_komma EmptyString s'
      else split_komma (String c cur) s'
  end.

Definition eval_tal (s : string) : R pynum :=
  match int_of_str s with
  | Some n => inr (PyInt n)
  | None =>
      match float_of_str s with
      | Some x => inr (PyFloat x)
      | None => inl SyntaxError
      end
  end.

Fixpoint eval_alle (l : list string) : R (list pynum) :=
  match l with
  | [] => inr []
  | s :: l' => try v <- eval_tal s; try vs <- eval_alle l'; inr (v :: vs)
  end.

(** [eval] on a parenthesised list of two or more plain decimal numbers,
    which is the text [punkt_geometri] builds from a well-formed geometry;
    on any other text this sample raises a [SyntaxError]. *)
Definition eval_tupel (s : string) : R (list pynum) :=
  match s with
  | String "(" s' =>
      if endswith s' ")" then
        match split_komma EmptyString (drop_last 1 s') with
        | [] | [_] => inl SyntaxError
        | l => eval_alle l
        end
      else inl SyntaxError
  | _ => inl SyntaxError
  end.

Definition dvr90_id : Z := 7.

Definition srider_eks : list Srid :=
  [ {| srid_name := "EPSG:4258"; srid_sridid := 3 |};
    {| srid_name := "EPSG:5799"; srid_sridid := dvr90_id |} ].

(** The history of G.1: a superseded DVR90 height, a height in another
    system, and the current DVR90 height. *)
Definition koordinater_G1 : list Koordinat :=
  [ {| sridid := dvr90_id; registreringtil := Some 20190101;
       z := PyFloat 31.25; sz := PyFloat 0.5 |};
    {| sridid := 3; registreringtil := None;
       z := PyFloat 99; sz := PyFloat 9 |};
    {| sridid := dvr90_id; registreringtil := None;
       z := PyFloat 31.5; sz := PyFloat 0.25 |} ].

Definition punktinformation_eks (ident : string) : option PunktInformation :=
  if String.eqb ident "G.1" then
    Some {| punktid := "id-G1"; koordinater := koordinater_G1 |}
  else if String.eqb ident "P1" then
    Some {| punktid := "id-P1"; koordinater := [] |}
  else if String.eqb ident "P2" then
    Some {| punktid := "id-P2";
            koordinater := [ {| sridid := dvr90_id; registreringtil := Some 20200101;
                                z := PyFloat 12; sz := PyFloat 1 |} ] |}
  else None.

Definition geometri_eks (punktid : string) : option string :=
  if String.eqb punktid "id-G1" then Some "POINT (12.5 55.75)"
  else if String.eqb punktid "id-P1" then Some "POINT (12.25 55.5)"
  else if String.eqb punktid "id-P2" then Some "POINT (10 57)"
  else None.

Definition verden_eks : omverden :=
  {| hent_srider := srider_eks;
     punktinformation_first := punktinformation_eks;
     hent_geometri_objekt := geometri_eks;
     py_eval := eval_tupel;
     open_fejl := fun _ => None |}.

(** The same database without the DVR90 row of the srid table. *)
Definition verden_uden_dvr90 : omverden :=
  {| hent_srider := [ {| srid_name := "EPSG:4258"; srid_sridid := 3 |} ];
     punktinformation_first := punktinformation_eks;
     hent_geometri_objekt := geometri_eks;
     py_eval := eval_tupel;
     open_fejl := fun _ => None |}.


(** Three observations in a closed loop over three points. *)
Definition linje_G1_P1 : string := "# G.1 P1 a b 4000 1.25 J1 c 0" +:+ nl.
Definition linje_P1_P2 : string := "#P1 P2 a b 0 -0.5-557 J2 c 10" +:+ nl.
Definition linje_P2_G1 : string := "# P2 G.1 a b 250.0 -0.75 J3 c 3" +:+ nl.

Definition fil_eks : fil :=
  {| name := "KDI2018vest.txt";
     lines := [ "Nivellement 2018" +:+ nl; linje_G1_P1; linje_P1_P2; nl; linje_P2_G1 ] |}.

(** The features of two observations: 4 km without setups, and no distance
    with ten setups. *)
Definition obs_4km : ObsFeature :=
  {| fra := "G.1"; til := "P1"; dist := 4000; dH := 1.25; setups := 0;
     journal := "J1"; coordinates := ((12.5, 55.75), (12.25, 55.5))%float |}.

Definition obs_10_setups : ObsFeature :=
  {| fra := "P1"; til := "P2"; dist := 0; dH := -0.5; setups := 10;
     journal := "J2"; coordinates := ((12.25, 55.5), (10, 57))%float |}.

(** The dict of the two points of the second sample line. *)
Definition punktinfo_P1_P2 : punktdict :=
  [ ("P1", Some [PyFloat 12.25; PyFloat 55.5; PyInt 0; PyInt 0]);
    ("P2", Some [PyInt 10; PyInt 57; PyInt 0; PyInt 0]) ].

(** What the reading loop makes of the three lines. *)
Definition observationer_eks : list string :=
  [ "G.1 P1 a b 4000 1.25 J1 c 0";
    "P1 P2 a b 0 -0.5-557 J2 c 10";
    "P2 G.1 a b 250.0 -0.75 J3 c 3" ].

Definition punkter_eks : gset string := {["G.1"; "P1"; "P2"]}.


(** A line with a hash mark and three tokens. *)
Definition linje_kort : string := "# G.1 P1 4000" +:+ nl.

Definition fil_kort : fil :=
  {| name := "kort.txt"; lines := [ linje_kort ] |}.

Definition fil_kort_foerst : fil :=
  {| name := "blandet.txt"; lines := [ linje_kort; linje_P1_P2 ] |}.

Definition fil_kort_sidst : fil :=
  {| name := "blandet.txt"; lines := [ linje_P1_P2; linje_kort ] |}.

(** ** Reading a run *)

(** The paths opened for writing, in order. *)
Fixpoint opened (tr : list event) : list string :=
  match tr with
  | [] => []
  | Open path :: tr' => path :: opened tr'
  | _ :: tr' => opened tr'
  end.

(** The texts written, in order. *)
Fixpoint writes (tr : list event) : list string :=
  match tr with
  | [] => []
  | Write _ text :: tr' => text :: writes tr'
  | _ :: tr' => writes tr'
  end.

(** What was printed, in order. *)
Fixpoint printed (tr : list event) : list string :=
  match tr with
  | [] => []
  | Print msg :: tr' => msg :: printed tr'
  | _ :: tr' => printed tr'
  end.

(** The events on files: everything but the prints. *)
Fixpoint file_events (tr : list event) : list event :=
  match tr with
  | [] => []
  | Print _ :: tr' => file_events tr'
  | ev :: tr' => ev :: file_events tr'
  end.


(** A coordinate row is the current one of a reference system. *)
Definition aktuel (koteid : Z) (koord : Koordinat) : Prop :=
  sridid koord = koteid ∧ registreringtil koord = None.

(** The height and the uncertainty [eksporter] stores for a point. *)
Definition kote_par (pinfo : PunktInformation) (koteid : Z) : pynum * pynum :=
  match punkt_kote_loop (koordinater pinfo) koteid with
  | None => (PyInt 0, PyInt 0)
  | Some kote => (z kote, sz kote)
  end.

(** The tuple the database gives for an ident: the point is known, it has
    a geometry, [eval] makes two numbers of it, and the tuple is these two
    numbers, the height and its uncertainty. *)
Definition opslag (w : omverden) (koteid : Z) (ident : string) (val : list pynum) : Prop :=
  exists pinfo geometri g0 g1,
    punktinformation_first w ident = Some pinfo /\
    hent_geometri_objekt w (punktid pinfo) = Some geometri /\
    py_eval w (replace_char " " "," (lstrip_chars "POINT " geometri)) = inr [g0; g1] /\
    val = [g0; g1; (kote_par pinfo koteid).1; (kote_par pinfo koteid).2].

(** The key and the [z] of every item of the dict that has one. *)
Definition koter (punktinfo : punktdict) : list (string * pynum) :=
  omap (fun '(key, val) => l ← val; z_ ← l !! 2%nat; Some (key, z_)) punktinfo.

(** The [point] elements of a list of keys and heights. *)
Definition point_elements (fix_ : bool) (items : list (string * pynum)) : list string :=
  map (fun '(key, z_) => xml_point_text fix_ key z_) items.

(** A key carries the prefix of the fixed points. *)
Definition fast (key : string) : Prop := startswith key "G." = true.

(** A dict as the first loop of [eksporter] builds it: every value is a
    tuple of four numbers. *)
Definition velformet (punktinfo : punktdict) : Prop :=
  Forall (fun item : string * option (list pynum) =>
            exists g0 g1 H sH, item.2 = Some [g0; g1; H; sH]) punktinfo.

(** A text is a [point] element. *)
Definition er_point (text : string) : Prop := startswith text "<point " = true.

#[global] Instance fast_dec key : Decision (fast key).
Proof. unfold fast. apply _. Defined.

#[global] Instance er_point_dec text : Decision (er_point text).
Proof. unfold er_point. apply _. Defined.

(** A computation on a file writes to that file only, and the same texts
    with the same outcome whatever the file is. *)
Definition uniform {A} (f : string -> M A) : Prop :=
  exists ts r, forall fil, f fil = (map (Write fil) ts, r).

(** The identifiers of a line of the input, as the reading loop takes them:
    the first two tokens of a line that starts with a hash mark. *)
Definition linje_identer (line : string) : gset string :=
  match line with
  | EmptyString => ∅
  | String c _ =>
      if negb (Ascii.eqb "#" c) then ∅
      else
        match split (strip (lstrip_chars "#" line)) with
        | t0 :: t1 :: _ => {[t0; t1]}
        | [t0] => {[t0]}
        | [] => ∅
        end
  end.

(** A line the reading loop accepts: it is not empty, and when it starts
    with a hash mark it has nine tokens. *)
Definition linje_ok (line : string) : Prop :=
  match line with
  | EmptyString => False
  | String c _ =>
      if negb (Ascii.eqb "#" c) then True
      else length (split (strip (lstrip_chars "#" line))) = 9%nat
  end.

(** What a line adds to the list of observations: its text without the
    hash marks in front and the blanks around, when it starts with a hash
    mark. *)
Definition linje_obs (line : string) : list string :=
  match line with
  | EmptyString => []
  | String c _ =>
      if negb (Ascii.eqb "#" c) then [] else [strip (lstrip_chars "#" line)]
  end.

(** The observations of a list of lines, in order. *)
Definition signifikante (ls : list string) : list string :=
  concat (map linje_obs ls).

(** A text is a [dh] element. *)
Definition er_dh (text : string) : Prop := startswith text "<dh " = true.

#[global] Instance er_dh_dec text : Decision (er_dh text).
Proof. unfold er_dh. apply _. Defined.

(** All lines of all files, in reading order. *)
Definition alle_linjer (filnavne : list fil) : list string :=
  concat (map lines filnavne).

(** An observation as the reading loop stores it: a text of nine tokens,
    the first two of them in the set of identifiers. *)
Definition obs_ok (punkter : gset string) (obs : string) : Prop :=
  exists d0 d1 d2 d3 d4 d5 d6 d7 d8,
    split obs = [d0; d1; d2; d3; d4; d5; d6; d7; d8] /\ d0 ∈ punkter /\ d1 ∈ punkter.

(** ** Properties *)

(** *** The built-ins on small inputs *)

Example split_blank : split "  G.1   P1 4000 " = ["G.1"; "P1"; "4000"].
Proof. reflexivity. Qed.

Example strip_hash_line : strip (lstrip_chars "#" linje_G1_P1) = "G.1 P1 a b 4000 1.25 J1 c 0".
Proof. reflexivity. Qed.

Example lstrip_point : lstrip_chars "POINT " "POINT (12.5 55.75)" = "(12.5 55.75)".
Proof. reflexivity. Qed.

Example splitext_txt : splitext_root "data/KDI2018vest.txt" = "data/KDI2018vest".
Proof. reflexivity. Qed.

Example splitext_dotfile : splitext_root "data/.skjult" = "data/.skjult".
Proof. reflexivity. Qed.

Example float_of_str_decimal :
  float_of_str "1.25" = Some 1.25%float /\ float_of_str "-0.5e1" = Some (-5)%float /\
  float_of_str "0.1" = Some 0.1%float /\ float_of_str "1_000" = Some 1000%float.
Proof. repeat split; vm_compute; reflexivity. Qed.

Example float_of_str_special :
  float_of_str "inf" = Some infinity /\ float_of_str "-Infinity" = Some neg_infinity /\
  float_of_str "1e400" = Some infinity /\ float_of_str "nan" = Some nan.
Proof. repeat split; vm_compute; reflexivity. Qed.

Example float_of_str_refused :
  float_of_str "" = None /\ float_of_str "-557" = Some (-557)%float /\
  float_of_str "1.25-557" = None /\ float_of_str "1,5" = None /\ float_of_str "." = None.
Proof. repeat split; vm_compute; reflexivity. Qed.

Example int_of_str_small :
  int_of_str "10" = Some 10 /\ int_of_str "-3" = Some (-3) /\ int_of_str "3.0" = None /\
  int_of_str "" = None.
Proof. repeat split; vm_compute; reflexivity. Qed.

Example format_f_rounding :
  format_f false 2 0.125 = "0.12" /\ format_f false 2 0.375 = "0.38" /\
  format_f true 5 1.5 = "+1.50000" /\ format_f true 5 (-0.25) = "-0.25000" /\
  format_f false 2 1.005 = "1.00".
Proof. repeat split; vm_compute; reflexivity. Qed.

Example repr_float_small :
  repr_float 31.5 = "31.5" /\ repr_float 0.1 = "0.1" /\ repr_float 100 = "100.0" /\
  repr_float 1e16 = "1e+16" /\ repr_float 0.00001 = "1e-05".
Proof. repeat split; vm_compute; reflexivity. Qed.

Example sqrt_domain :
  Py.sqrt 4 = Some 2%float /\ Py.sqrt (-1) = None /\ Py.sqrt (-0) = Some (-0)%float.
Proof. repeat split; vm_compute; reflexivity. Qed.

Example float_of_int_overflow :
  float_of_int 10 = Some 10%float /\ float_of_int (2 ^ 1024) = None.
Proof. repeat split; vm_compute; reflexivity. Qed.

Example sorted_eks : sorted {["P2"; "G.1"; "P1"]} = ["G.1"; "P1"; "P2"].
Proof. vm_compute. reflexivity. Qed.

(** *** The effect monad *)

Lemma bind_ret {A B} (a : A) (k : A -> M B) : bind (ret a) k = k a.
Proof. unfold bind, ret. destruct (k a) as [tr r]. reflexivity. Qed.

Lemma bind_lift_inr {A B} (a : A) (k : A -> M B) : bind (lift (inr a)) k = k a.
Proof. apply bind_ret. Qed.

Lemma bind_lift_inl {A B} (e : exn) (k : A -> M B) : bind (lift (inl e)) k = ([], inl e).
Proof. reflexivity. Qed.

Lemma bind_raise {A B} (e : exn) (k : A -> M B) : bind (raise e) k = ([], inl e).
Proof. reflexivity. Qed.

Lemma bind_emit {B} (ev : event) (k : unit -> M B) :
  bind (emit ev) k = (ev :: (k tt).1, (k tt).2).
Proof. unfold bind, emit. destruct (k tt) as [tr r]. reflexivity. Qed.

Lemma bind_inr {A B} (m : M A) (k : A -> M B) tr b :
  bind m k = (tr, inr b) ->
  exists tr1 a tr2, m = (tr1, inr a) /\ k a = (tr2, inr b) /\ tr = tr1 ++ tr2.
Proof.
  destruct m as [tr1 [e | a]]; simpl; [discriminate |].
  destruct (k a) as [tr2 r] eqn:Hk. intros [= <- ->].
  exists tr1, a, tr2. auto.
Qed.

Lemma bind_inr_eq {A B} tr (a : A) (k : A -> M B) :
  bind (tr, inr a) k = (tr ++ (k a).1, (k a).2).
Proof. simpl. destruct (k a). reflexivity. Qed.

Lemma bind_events {A B} (m : M A) (k : A -> M B) :
  events (bind m k) =
  events m ++ match outcome m with inl _ => [] | inr a => events (k a) end.
Proof.
  destruct m as [tr [e | a]]; unfold events; simpl.
  - symmetry. apply app_nil_r.
  - destruct (k a). reflexivity.
Qed.

Lemma bind_outcome {A B} (m : M A) (k : A -> M B) :
  outcome (bind m k) =
  match outcome m with inl e => inl e | inr a => outcome (k a) end.
Proof.
  destruct m as [tr [e | a]]; unfold outcome; simpl; [reflexivity |].
  destruct (k a). reflexivity.
Qed.

Lemma file_events_app tr1 tr2 :
  file_events (tr1 ++ tr2) = file_events tr1 ++ file_events tr2.
Proof.
  induction tr1 as [| [] tr1 IH]; simpl; rewrite ?IH; reflexivity.
Qed.

Lemma writes_app tr1 tr2 : writes (tr1 ++ tr2) = writes tr1 ++ writes tr2.
Proof.
  induction tr1 as [| [] tr1 IH]; simpl; rewrite ?IH; reflexivity.
Qed.

Lemma writes_map_Write path ts : writes (map (Write path) ts) = ts.
Proof. induction ts as [| t ts IH]; simpl; congruence. Qed.

(** *** The dict *)

Lemma dict_get_set_eq {V} (d : dict V) k v : dict_get (dict_set d k v) k = Some v.
Proof.
  induction d as [| [k' v'] d IH]; simpl.
  - rewrite String.eqb_refl. reflexivity.
  - destruct (String.eqb k' k) eqn:E; simpl; rewrite E; auto.
Qed.

Lemma dict_set_fresh {V} (d : dict V) k v :
  k ∉ map fst d -> dict_set d k v = d ++ [(k, v)].
Proof.
  induction d as [| [k' v'] d IH]; simpl; intros Hk; [reflexivity |].
  apply not_elem_of_cons in Hk as [Hne Hk].
  destruct (String.eqb_spec k' k) as [-> | _]; [congruence |].
  rewrite IH by assumption. reflexivity.
Qed.

(** *** The height of a point *)

Lemma punkt_kote_loop_first koords koteid koord :
  filter (aktuel koteid) koords = [koord] ->
  punkt_kote_loop koords koteid = Some koord.
Proof.
  induction koords as [| k koords IH]; simpl; [discriminate |].
  unfold filter in *. simpl. unfold filter in IH. 
  destruct (decide (aktuel koteid k)) as [[Hs Hr] | Hn].
  - intros [= ->]. rewrite Hs, Z.eqb_refl, Hr. reflexivity.
  - intros H. destruct (Z.eqb_spec (sridid k) koteid) as [Hs | Hs]; simpl; [| auto].
    destruct (registreringtil k) eqn:Hr; [auto |].
    exfalso. apply Hn. split; auto.
Qed.

Lemma punkt_kote_loop_none koords koteid :
  (forall koord, koord ∈ koords -> ~ aktuel koteid koord) ->
  punkt_kote_loop koords koteid = None.
Proof.
  induction koords as [| k koords IH]; simpl; intros H; [reflexivity |].
  destruct (Z.eqb_spec (sridid k) koteid) as [Hs | Hs]; simpl.
  - destruct (registreringtil k) eqn:Hr.
    + apply IH. intros koord Hin. apply H. right. exact Hin.
    + exfalso. apply (H k); [left | split; assumption].
  - apply IH. intros koord Hin. apply H. right. exact Hin.
Qed.

(** A step of the first loop that ends normally found the point and a
    geometry of two numbers, printed nothing, and stored the two numbers
    with the height and the uncertainty of the point. *)
Lemma eksporter_punkt_inr w koteid d ident tr d' :
  eksporter_punkt w koteid d ident = (tr, inr d') ->
  exists pinfo g0 g1,
    punktinformation_first w ident = Some pinfo /\
    tr = [] /\
    d' = dict_set d ident (Some [g0; g1; (kote_par pinfo koteid).1; (kote_par pinfo koteid).2]).
Proof.
  unfold eksporter_punkt, punkt_information. rewrite bind_ret.
  destruct (punktinformation_first w ident) as [pinfo |]; [| discriminate].
  unfold punkt_geometri. simpl or_raise. rewrite bind_lift_inr.
  destruct (hent_geometri_objekt w (punktid pinfo)) as [geometri |]; [| discriminate].
  destruct (py_eval w _) as [e | geo]; [discriminate |].
  rewrite bind_lift_inr.
  destruct geo as [| g0 [| g1 [| g2 geo]]]; try discriminate.
  simpl. unfold kote_par.
  destruct (punkt_kote_loop (koordinater pinfo) koteid) as [kote |] eqn:Hk;
    intros [= <- <-]; exists pinfo, g0, g1; rewrite Hk; auto.
Qed.

(** C6: a point whose coordinate history has exactly one current row of
    the height system ([koteid], registration not ended) resolves to that
    row: [punkt_kote] returns it, whatever superseded rows and rows of
    other systems surround it, and the step of [eksporter] that resolves
    the point stores the row's [z] and [sz]. *)
Theorem punkt_kote_current_record w koteid pinfo koord :
  filter (aktuel koteid) (koordinater pinfo) = [koord] ->
  punkt_kote (Some pinfo) koteid = inr (Some koord) /\
  forall d ident tr d',
    punktinformation_first w ident = Some pinfo ->
    eksporter_punkt w koteid d ident = (tr, inr d') ->
    exists g0 g1, dict_get d' ident = Some (Some [g0; g1; z koord; sz koord]).
Proof.
  intros Hone. pose proof (punkt_kote_loop_first _ _ _ Hone) as Hloop.
  split.
  - unfold punkt_kote. simpl. rewrite Hloop. reflexivity.
  - intros d ident tr d' Hpi Hrun.
    apply eksporter_punkt_inr in Hrun as (pinfo' & g0 & g1 & Hpi' & _ & ->).
    assert (pinfo' = pinfo) as -> by congruence.
    exists g0, g1. rewrite dict_get_set_eq. unfold kote_par. rewrite Hloop.
    reflexivity.
Qed.

Lemma punkt_kote_current_record_witness :
  filter (aktuel dvr90_id) koordinater_G1
  = [ {| sridid := dvr90_id; registreringtil := None;
         z := PyFloat 31.5; sz := PyFloat 0.25 |} ] /\
  punkt_kote (punktinformation_eks "G.1") dvr90_id
  = inr (Some {| sridid := dvr90_id; registreringtil := None;
                 z := PyFloat 31.5; sz := PyFloat 0.25 |}) /\
  exists d',
    eksporter_punkt verden_eks dvr90_id [] "G.1" = ([], inr d') /\
    exists g0 g1,
      dict_get d' "G.1" = Some (Some [g0; g1; PyFloat 31.5; PyFloat 0.25]).
Proof.
  assert (Hone : filter (aktuel dvr90_id) koordinater_G1
                 = [ {| sridid := dvr90_id; registreringtil := None;
                        z := PyFloat 31.5; sz := PyFloat 0.25 |} ])
    by reflexivity.
  split; [exact Hone |].
  destruct (punkt_kote_current_record verden_eks dvr90_id
              {| punktid := "id-G1"; koordinater := koordinater_G1 |} _ Hone)
    as [Hkote Hpunkt].
  split; [exact Hkote |].
  eexists. split; [reflexivity |].
  exact (Hpunkt [] "G.1" [] _ eq_refl eq_refl).
Defined.

(** C7: a point whose coordinate history has no current row of the height
    system resolves to height 0 and uncertainty 0: [punkt_kote] returns
    [None], and the step of [eksporter] that resolves the point stores the
    integers 0 and 0. *)
Theorem punkt_kote_default_zero w koteid pinfo :
  (forall koord, koord ∈ koordinater pinfo -> ~ aktuel koteid koord) ->
  punkt_kote (Some pinfo) koteid = inr None /\
  forall d ident tr d',
    punktinformation_first w ident = Some pinfo ->
    eksporter_punkt w koteid d ident = (tr, inr d') ->
    exists g0 g1, dict_get d' ident = Some (Some [g0; g1; PyInt 0; PyInt 0]).
Proof.
  intros Hnone. pose proof (punkt_kote_loop_none _ _ Hnone) as Hloop.
  split.
  - unfold punkt_kote. simpl. rewrite Hloop. reflexivity.
  - intros d ident tr d' Hpi Hrun.
    apply eksporter_punkt_inr in Hrun as (pinfo' & g0 & g1 & Hpi' & _ & ->).
    assert (pinfo' = pinfo) as -> by congruence.
    exists g0, g1. rewrite dict_get_set_eq. unfold kote_par. rewrite Hloop.
    reflexivity.
Qed.

Lemma punkt_kote_default_zero_witness :
  punkt_kote (punktinformation_eks "P2") dvr90_id = inr None /\
  exists d',
    eksporter_punkt verden_eks dvr90_id [] "P2" = ([], inr d') /\
    exists g0 g1, dict_get d' "P2" = Some (Some [g0; g1; PyInt 0; PyInt 0]).
Proof.
  destruct (punkt_kote_default_zero verden_eks dvr90_id
              {| punktid := "id-P2";
                 koordinater := [ {| sridid := dvr90_id; registreringtil := Some 20200101;
                                     z := PyFloat 12; sz := PyFloat 1 |} ] |})
    as [Hkote Hpunkt].
  - intros koord Hin [_ Hr]. apply list_elem_of_singleton in Hin. subst koord.
    discriminate Hr.
  - split; [exact Hkote |].
    eexists. split; [reflexivity |].
    exact (Hpunkt [] "P2" [] _ eq_refl eq_refl).
Defined.

(** *** Reading the input *)

Lemma gamaficer_linje_ok st line :
  linje_ok line ->
  exists observationer,
    gamaficer_linje st line = inr (observationer, linje_identer line ∪ st.2).
Proof.
  destruct st as [observationer punkter].
  unfold gamaficer_linje, linje_ok, linje_identer.
  destruct line as [| c rest]; [intros [] |].
  destruct (Ascii.eqb "#" c); cbn [negb fst snd].
  - intros Hlen.
    destruct (split (strip (lstrip_chars "#" (String c rest))))
      as [| t0 [| t1 [| t2 [| t3 [| t4 [| t5 [| t6 [| t7 [| t8 [| t9 l]]]]]]]]]];
      try discriminate Hlen.
    eexists. f_equal. f_equal. set_solver.
  - intros _. exists observationer. f_equal. f_equal. set_solver.
Qed.

Lemma gamaficer_linjer_ok st ls :
  Forall linje_ok ls ->
  exists observationer,
    gamaficer_linjer st ls = ((observationer, ⋃ (linje_identer <$> ls) ∪ st.2), None).
Proof.
  intros Hok. revert st. induction Hok as [| line ls Hline _ IH]; intros st.
  - exists st.1. destruct st as [o p]. simpl. f_equal. f_equal. set_solver.
  - simpl. destruct (gamaficer_linje_ok st line Hline) as [o1 ->].
    destruct (IH (o1, linje_identer line ∪ st.2)) as [o2 ->].
    exists o2. f_equal. f_equal. simpl. set_solver.
Qed.

Lemma gamaficer_filer_ok st filnavne :
  Forall linje_ok (alle_linjer filnavne) ->
  exists observationer,
    gamaficer_filer st filnavne
    = ((observationer, ⋃ (linje_identer <$> alle_linjer filnavne) ∪ st.2), None).
Proof.
  revert st. induction filnavne as [| f filnavne IH]; intros st Hok.
  - exists st.1. destruct st as [o p]. simpl. f_equal. f_equal. set_solver.
  - unfold alle_linjer in Hok. simpl in Hok. apply Forall_app in Hok as [Hf Hrest].
    simpl. destruct (gamaficer_linjer_ok st (lines f) Hf) as [o1 ->].
    destruct (IH (o1, ⋃ (linje_identer <$> lines f) ∪ st.2) Hrest) as [o2 ->].
    exists o2. f_equal. f_equal. unfold alle_linjer. simpl.
    rewrite fmap_app, union_list_app_L. set_solver.
Qed.

(** When every line of every file is accepted, the set of identifiers is
    the union of the first two tokens of the lines with a hash mark. *)
Lemma gamaficer_filer_punkter filnavne :
  Forall linje_ok (alle_linjer filnavne) ->
  (gamaficer_filer ([], ∅) filnavne).1.2 = ⋃ (linje_identer <$> alle_linjer filnavne)
  /\ (gamaficer_filer ([], ∅) filnavne).2 = None.
Proof.
  intros Hok. destruct (gamaficer_filer_ok ([], ∅) filnavne Hok) as [o ->].
  simpl. split; [set_solver | reflexivity].
Qed.

(** Then the set does not depend on the order of the lines and files. *)
Lemma gamaficer_filer_order filnavne filnavne' :
  alle_linjer filnavne ≡ₚ alle_linjer filnavne' ->
  Forall linje_ok (alle_linjer filnavne) ->
  (gamaficer_filer ([], ∅) filnavne).1.2 = (gamaficer_filer ([], ∅) filnavne').1.2.
Proof.
  intros Hperm Hok.
  assert (Hok' : Forall linje_ok (alle_linjer filnavne')) by (rewrite <- Hperm; exact Hok).
  destruct (gamaficer_filer_punkter _ Hok) as [-> _].
  destruct (gamaficer_filer_punkter _ Hok') as [-> _].
  rewrite Hperm. reflexivity.
Qed.

(** The reading loop stops at the first line it does not accept, with the
    lists as they were. *)
Lemma gamaficer_linjer_stop st ls :
  forall st' e, gamaficer_linjer st ls = (st', Some e) ->
  exists before line after,
    ls = before ++ line :: after /\
    gamaficer_linjer st before = (st', None) /\
    gamaficer_linje st' line = inl e.
Proof.
  revert st. induction ls as [| line ls IH]; intros st st' e; simpl; [discriminate |].
  destruct (gamaficer_linje st line) as [e1 | st1] eqn:Hline.
  - intros [= <- <-]. exists [], line, ls. auto.
  - intros H. destruct (IH _ _ _ H) as (before & l & after & -> & Hb & Hl).
    exists (line :: before), l, after. simpl. rewrite Hline. auto.
Qed.

(** The [try] statement of [gamaficer] never raises and touches no file:
    it prints at most one message and goes on with what was read. *)
Lemma gamaficer_laes_returns filnavne :
  outcome (gamaficer_laes filnavne) = inr (gamaficer_filer ([], ∅) filnavne).1 /\
  file_events (events (gamaficer_laes filnavne)) = [].
Proof.
  unfold gamaficer_laes.
  destruct (gamaficer_filer ([], ∅) filnavne) as [st [e |]]; [destruct e |];
    split; reflexivity.
Qed.

(** *** The run as a whole *)

Lemma gamaficer_output_inl filnavne output e :
  gamaficer_output filnavne output = inl e ->
  e = IndexError /\ filnavne = [] /\ output = "".
Proof.
  unfold gamaficer_output.
  destruct (String.eqb_spec output "") as [-> | _]; [| discriminate].
  destruct filnavne as [| f filnavne]; simpl.
  - intros [= <-]. auto.
  - destruct (String.eqb (name f) "<stdin>"); discriminate.
Qed.

(** After a line that fails the token count, [gamaficer] prints the
    message and exports what was read before that line. *)
Lemma gamaficer_after_bad_line w filnavne output st msg :
  gamaficer_filer ([], ∅) filnavne = (st, Some (AssertionError msg)) ->
  output <> "" ->
  hent_sridid (hent_srider w) "EPSG:5799" <> 0 ->
  gamaficer w filnavne output
  = (Print msg
       :: events (eksporter w output st.1 st.2 (hent_sridid (hent_srider w) "EPSG:5799")),
     outcome (eksporter w output st.1 st.2 (hent_sridid (hent_srider w) "EPSG:5799"))).
Proof.
  intros Hread Hout Hsrid. unfold gamaficer, gamaficer_output.
  destruct (String.eqb_spec output "") as [-> | _]; [congruence |].
  rewrite bind_lift_inr. unfold gamaficer_laes. rewrite Hread.
  destruct st as [observationer punkter].
  destruct (Z.eqb_spec (hent_sridid (hent_srider w) "EPSG:5799") 0) as [E | _];
    [congruence |].
  cbn -[eksporter hent_sridid].
  destruct (Z.eqb_spec (hent_sridid (hent_srider w) "EPSG:5799") 0) as [E | _];
    [congruence |].
  destruct (eksporter w output observationer punkter _). reflexivity.
Qed.

(** C1, on the code: a file whose second line has a hash mark and three
    tokens.  The message with the text of the line is printed, but the run
    is not aborted: it ends normally and has opened all three output files,
    with the observation read before the bad line in them. *)
Theorem gamaficer_malformed_line_still_exports :
  outcome (gamaficer verden_eks [fil_kort_sidst] "") = inr tt /\
  printed (events (gamaficer verden_eks [fil_kort_sidst] ""))
  = ["Malformed input line: G.1 P1 4000"] /\
  opened (events (gamaficer verden_eks [fil_kort_sidst] ""))
  = ["punkter.geojson"; "observationer.geojson"; "blandet.xml"] /\
  exists obs pre post,
    events (gamaficer verden_eks [fil_kort_sidst] "")
    = pre ++ Dump "observationer.geojson" (ObsFeatures [obs]) :: post /\
    fra obs = "P1" /\ til obs = "P2".
Proof.
  split; [vm_compute; reflexivity |].
  split; [vm_compute; reflexivity |].
  split; [vm_compute; reflexivity |].
  eexists _, [_; _; _; _], _. split; [vm_compute; reflexivity |].
  split; reflexivity.
Qed.

(** C9, on the code: the same two lines in the two orders.  With the bad
    line first the set of identifiers is empty, with the bad line last it
    holds the identifiers of the good line; in neither case is it the union
    over both lines, and it depends on the order. *)
Theorem gamaficer_partial_ident_set :
  lines fil_kort_foerst ≡ₚ lines fil_kort_sidst /\
  (gamaficer_filer ([], ∅) [fil_kort_foerst]).1.2 = ∅ /\
  (gamaficer_filer ([], ∅) [fil_kort_sidst]).1.2 = {["P1"; "P2"]} /\
  ⋃ (linje_identer <$> lines fil_kort_sidst) = {["G.1"; "P1"; "P2"]}.
Proof.
  split; [apply Permutation_swap |].
  split; [vm_compute; reflexivity |].
  split; vm_compute; reflexivity.
Qed.

(** C3: when the lookup of EPSG:5799 in the srid table gives 0, the run
    ends with an exception and has touched no file: no file was opened,
    written or dumped to.  The exception is the failed assertion on
    [dvr90], unless there was neither an input file nor an output name, in
    which case the run had ended before the lookup. *)
Theorem gamaficer_aborts_without_dvr90 w filnavne output :
  hent_sridid (hent_srider w) "EPSG:5799" = 0 ->
  file_events (events (gamaficer w filnavne output)) = [] /\
  exists e,
    outcome (gamaficer w filnavne output) = inl e /\
    (filnavne <> [] \/ output <> "" ->
     e = AssertionError "DVR90 (EPSG:5799) ikke fundet i srid-tabel").
Proof.
  intros Hsrid. unfold gamaficer.
  destruct (gamaficer_output filnavne output) as [e | output'] eqn:Hout.
  - rewrite bind_lift_inl. split; [reflexivity |].
    exists e. split; [reflexivity |].
    apply gamaficer_output_inl in Hout as (_ & -> & ->).
    intros [H | H]; congruence.
  - rewrite bind_lift_inr, Hsrid.
    destruct (gamaficer_laes_returns filnavne) as [Hres Hfiles].
    rewrite bind_events, bind_outcome, Hres, file_events_app, Hfiles.
    destruct (gamaficer_filer ([], ∅) filnavne).1 as [observationer punkter].
    split; [reflexivity |]. eexists. split; [reflexivity | auto].
Qed.

Lemma gamaficer_aborts_without_dvr90_witness :
  file_events (events (gamaficer verden_uden_dvr90 [fil_eks] "")) = [] /\
  exists e,
    outcome (gamaficer verden_uden_dvr90 [fil_eks] "") = inl e /\
    (([fil_eks] : list fil) <> [] \/ "" <> "" ->
     e = AssertionError "DVR90 (EPSG:5799) ikke fundet i srid-tabel").
Proof.
  apply (gamaficer_aborts_without_dvr90 verden_uden_dvr90 [fil_eks] "").
  reflexivity.
Defined.

(** *** The features of the observations *)

(** An identifier that is no key of the dict is a [KeyError]. *)
Lemma obs_feature_1_absent punkter obs d0 d1 d2 d3 d4 d5 d6 d7 d8 :
  split obs = [d0; d1; d2; d3; d4; d5; d6; d7; d8] ->
  (dict_get punkter d0 = None -> obs_feature_1 punkter obs = inl (KeyError d0)) /\
  (dict_get punkter d1 = None ->
   obs_feature_1 punkter obs = inl (KeyError d0) \/
   obs_feature_1 punkter obs = inl (KeyError d1)).
Proof.
  intros Hsplit. unfold obs_feature_1. rewrite Hsplit. split.
  - intros ->. reflexivity.
  - intros ->. destruct (dict_get punkter d0); simpl; auto.
Qed.

(** A key whose value is [None] gets the coordinates 11 and 56. *)
Lemma obs_feature_1_none_value punkter obs f d0 d1 d2 d3 d4 d5 d6 d7 d8 :
  split obs = [d0; d1; d2; d3; d4; d5; d6; d7; d8] ->
  obs_feature_1 punkter obs = inr f ->
  (dict_get punkter d0 = Some None -> (coordinates f).1 = (11, 56)%float) /\
  (dict_get punkter d1 = Some None -> (coordinates f).2 = (11, 56)%float).
Proof.
  intros Hsplit. unfold obs_feature_1. rewrite Hsplit.
  destruct (dict_get punkter d0) as [fra_ |]; [| discriminate].
  destruct (dict_get punkter d1) as [til_ |]; [| discriminate].
  simpl.
  destruct (float_of_str d4); [| discriminate].
  destruct (float_of_str (reparer d5)); [| discriminate].
  destruct (int_of_str d8); [| discriminate]. simpl.
  set (a := match fra_ with Some v => v | None => kattegat end).
  set (b := match til_ with Some v => v | None => kattegat end).
  destruct (float_at a 0) as [| x0] eqn:Hx0; [discriminate |].
  destruct (float_at a 1) as [| x1] eqn:Hx1; [discriminate |].
  destruct (float_at b 0) as [| y0] eqn:Hy0; [discriminate |].
  destruct (float_at b 1) as [| y1] eqn:Hy1; [discriminate |].
  simpl. intros [= <-]. simpl. split; intros [= ->].
  - vm_compute in Hx0, Hx1. congruence.
  - vm_compute in Hy0, Hy1. congruence.
Qed.

(** C2, on the code: an observation from A to B.  With a dict that has no
    key A the step raises [KeyError]; with a dict that has A but not B it
    raises [KeyError] too, and consuming the generator ends with that
    exception: no feature is produced and nothing is replaced by 11, 56. *)
Theorem obs_feature_absent_ident_raises :
  obs_feature_1 [] "A B a b 4000 1.25 J1 c 0" = inl (KeyError "A") /\
  obs_feature_1 [("A", Some [PyFloat 12.5; PyFloat 55.75; PyInt 0; PyInt 0])]
                "A B a b 4000 1.25 J1 c 0"
  = inl (KeyError "B") /\
  list_of (obs_feature [("A", Some [PyFloat 12.5; PyFloat 55.75; PyInt 0; PyInt 0])]
                       ["A B a b 4000 1.25 J1 c 0"])
  = inl (KeyError "B").
Proof. repeat split; vm_compute; reflexivity. Qed.

(** *** Strings *)

Lemma append_cons a s t : String a s +:+ t = String a (s +:+ t).
Proof. reflexivity. Qed.

Lemma append_nil_r s : s +:+ "" = s.
Proof. induction s as [| a s IH]; [reflexivity |]. rewrite append_cons, IH. reflexivity. Qed.

Lemma append_assoc s t u : (s +:+ t) +:+ u = s +:+ (t +:+ u).
Proof.
  induction s as [| a s IH]; [reflexivity |].
  rewrite !append_cons, IH. reflexivity.
Qed.

Lemma length_append s t : String.length (s +:+ t) = (String.length s + String.length t)%nat.
Proof. induction s as [| a s IH]; [reflexivity |]. rewrite append_cons. simpl. rewrite IH. reflexivity. Qed.

Lemma rev_app_spec s acc : String.rev_app s acc = String.rev s +:+ acc.
Proof.
  revert acc. induction s as [| a s IH]; intros acc; [reflexivity |].
  unfold String.rev. simpl. rewrite (IH (String a acc)), (IH (String a "")).
  rewrite append_assoc. reflexivity.
Qed.

Lemma rev_cons a s : String.rev (String a s) = String.rev s +:+ String a "".
Proof. unfold String.rev at 1. simpl. apply rev_app_spec. Qed.

Lemma rev_append s t : String.rev (s +:+ t) = String.rev t +:+ String.rev s.
Proof.
  induction s as [| a s IH].
  - simpl. rewrite append_nil_r. reflexivity.
  - rewrite append_cons, !rev_cons, IH, append_assoc. reflexivity.
Qed.

Lemma rev_involutive s : String.rev (String.rev s) = s.
Proof.
  induction s as [| a s IH]; [reflexivity |].
  rewrite rev_cons, rev_append, IH. reflexivity.
Qed.

Lemma startswith_append pre s : startswith (pre +:+ s) pre = true.
Proof.
  induction pre as [| a pre IH]; [destruct s; reflexivity |].
  rewrite append_cons. simpl. rewrite Ascii.eqb_refl. exact IH.
Qed.

Lemma startswith_inv s pre : startswith s pre = true -> exists rest, s = pre +:+ rest.
Proof.
  revert s. induction pre as [| a pre IH]; intros s.
  - exists s. reflexivity.
  - destruct s as [| c s]; simpl; [discriminate |].
    destruct (Ascii.eqb_spec c a) as [-> | _]; [| discriminate].
    simpl. intros H. destruct (IH s H) as [rest ->]. exists rest. reflexivity.
Qed.

(** [s.endswith(suf)] says that [s] is some text followed by [suf]. *)
Lemma endswith_iff s suf : endswith s suf = true <-> exists x, s = x +:+ suf.
Proof.
  unfold endswith. split.
  - intros H. apply startswith_inv in H as [rest Hrest].
    exists (String.rev rest).
    rewrite <- (rev_involutive s), Hrest, rev_append, rev_involutive. reflexivity.
  - intros [x ->]. rewrite rev_append. apply startswith_append.
Qed.

Lemma substring_append x y : String.substring 0 (String.length x) (x +:+ y) = x.
Proof.
  induction x as [| a x IH]; [destruct y; reflexivity |].
  rewrite append_cons. simpl. rewrite IH. reflexivity.
Qed.

(** [(x + suf)[:-len(suf)]] is [x]. *)
Lemma drop_last_append x suf : drop_last (String.length suf) (x +:+ suf) = x.
Proof.
  unfold drop_last. rewrite length_append.
  replace (String.length x + String.length suf - String.length suf)%nat
    with (String.length x) by lia.
  apply substring_append.
Qed.

Lemma reparer_suffix x : reparer (x +:+ "-557") = x.
Proof.
  unfold reparer.
  assert (H : endswith (x +:+ "-557") "-557" = true) by (apply endswith_iff; eauto).
  rewrite H. apply (drop_last_append x "-557").
Qed.

Lemma reparer_other tok : (forall x, tok <> x +:+ "-557") -> reparer tok = tok.
Proof.
  intros H. unfold reparer. destruct (endswith tok "-557") eqn:E; [| reflexivity].
  apply endswith_iff in E as [x ->]. destruct (H x). reflexivity.
Qed.

(** The [dH] of a feature is the float of the repaired sixth token. *)
Lemma obs_feature_1_dH punkter obs f d0 d1 d2 d3 d4 d5 d6 d7 d8 :
  split obs = [d0; d1; d2; d3; d4; d5; d6; d7; d8] ->
  obs_feature_1 punkter obs = inr f ->
  float_of_str (reparer d5) = Some (dH f).
Proof.
  intros Hsplit. unfold obs_feature_1. rewrite Hsplit.
  destruct (dict_get punkter d0) as [fra_ |]; [| discriminate].
  destruct (dict_get punkter d1) as [til_ |]; [| discriminate].
  simpl.
  destruct (float_of_str d4); [| discriminate].
  destruct (float_of_str (reparer d5)); [| discriminate].
  destruct (int_of_str d8); [| discriminate]. simpl.
  destruct (float_at _ 0); [discriminate |].
  destruct (float_at _ 1); [discriminate |].
  destruct (float_at _ 0); [discriminate |].
  destruct (float_at _ 1); [discriminate |].
  simpl. intros [= <-]. reflexivity.
Qed.

(** C8: in the feature of an observation, [dH] is the float of the sixth
    token ([dele[5]], the height difference) read as follows: when the token
    is some text [x] followed by [-557], the last four characters are left
    out and [x] is what [float] reads; a token that does not end in [-557]
    is read as it stands. *)
Theorem obs_feature_repairs_dH punkter obs f d0 d1 d2 d3 d4 d5 d6 d7 d8 :
  split obs = [d0; d1; d2; d3; d4; d5; d6; d7; d8] ->
  obs_feature_1 punkter obs = inr f ->
  (forall x, d5 = x +:+ "-557" -> float_of_str x = Some (dH f)) /\
  ((forall x, d5 <> x +:+ "-557") -> float_of_str d5 = Some (dH f)).
Proof.
  intros Hsplit Hrun.
  pose proof (obs_feature_1_dH _ _ _ _ _ _ _ _ _ _ _ _ Hsplit Hrun) as H.
  split.
  - intros x ->. rewrite reparer_suffix in H. exact H.
  - intros Hno. rewrite (reparer_other d5 Hno) in H. exact H.
Qed.

Lemma obs_feature_repairs_dH_witness :
  exists f,
    obs_feature_1 punktinfo_P1_P2 "P1 P2 a b 0 -0.5-557 J2 c 10" = inr f /\
    float_of_str "-0.5" = Some (dH f) /\
    dH f = (-0.5)%float.
Proof.
  eexists. split; [vm_compute; reflexivity |].
  split; [| reflexivity].
  refine (proj1 (obs_feature_repairs_dH punktinfo_P1_P2
                   "P1 P2 a b 0 -0.5-557 J2 c 10" _
                   "P1" "P2" "a" "b" "0" "-0.5-557" "J2" "c" "10" _ _) "-0.5" _);
    vm_compute; reflexivity.
Defined.

(** *** The uncertainty of an observation *)

Lemma length_frac_digits p r : String.length (frac_digits p r) = p.
Proof.
  revert r. induction p as [| p IH]; intros r; [reflexivity |].
  simpl. rewrite length_append, IH. simpl. lia.
Qed.

Lemma div_half_even_nonneg num den : 0 <= num -> 0 < den -> 0 <= div_half_even num den.
Proof.
  intros Hn Hd. unfold div_half_even.
  assert (0 <= num / den) by (apply Z.div_pos; assumption).
  destruct (2 * (num mod den) ?= den); [destruct (Z.even (num / den)) | |]; lia.
Qed.

Lemma scaled_digits_nonneg p m e : 0 <= scaled_digits p m e.
Proof.
  unfold scaled_digits.
  assert (0 < 10 ^ Z.of_nat p) by (apply Z.pow_pos_nonneg; lia).
  destruct (Z.leb_spec 0 e).
  - assert (0 < 2 ^ e) by (apply Z.pow_pos_nonneg; lia). nia.
  - apply div_half_even_nonneg; [nia | apply Z.pow_pos_nonneg; lia].
Qed.

(** A finite float with two decimals: a minus exactly when the sign bit is
    set, the decimal digits of a natural number, a point and exactly two
    digits. *)
Lemma format_f_2_finite x :
  finite x = true ->
  exists k fr,
    0 <= k /\
    format_f false 2 x
    = (if signbit x then "-" else "") +:+ str_int k +:+ "." +:+ fr /\
    String.length fr = 2%nat.
Proof.
  unfold finite, format_f, signbit.
  destruct (Prim2SF x) as [s | s | | s m e]; try discriminate; intros _.
  - exists (0 / 10 ^ Z.of_nat 2), (frac_digits 2 (0 mod 10 ^ Z.of_nat 2)).
    split; [apply Z.div_pos; lia |].
    split; [destruct s; reflexivity | apply length_frac_digits].
  - exists (scaled_digits 2 m e / 10 ^ Z.of_nat 2),
      (frac_digits 2 (scaled_digits 2 m e mod 10 ^ Z.of_nat 2)).
    split; [apply Z.div_pos; [apply scaled_digits_nonneg | lia] |].
    split; [destruct s; reflexivity | apply length_frac_digits].
Qed.

(** A float that is not finite is written by its name. *)
Lemma format_f_not_finite p x :
  finite x = false ->
  format_f false p x = "inf" \/ format_f false p x = "-inf" \/ format_f false p x = "nan".
Proof.
  unfold finite, format_f.
  destruct (Prim2SF x) as [s | s | | s m e]; try discriminate; intros _.
  - destruct s; auto.
  - auto.
Qed.

(** C4: an observation that [xml_obs] writes is written as one [dh]
    element whose [stdev] attribute is
    [sqrt(dist_km) * 0.6 + 0.01 * setups] in binary64 arithmetic, with
    [dist_km] the [dist] of the feature divided by 1000, formatted by
    [.2f]: for a finite value a minus sign exactly when its sign bit is
    set, the digits of the integer part, a point and exactly two decimals;
    for a value that is not finite the text [inf], [-inf] or [nan]. *)
Theorem xml_obs_stdev_formula fil obs tr :
  xml_obs fil obs = (tr, inr tt) ->
  exists dist_km rod n stdev,
    dist_km = (dist obs / 1000)%float /\
    Py.sqrt dist_km = Some rod /\
    float_of_int (setups obs) = Some n /\
    stdev = (rod * 0.6 + 0.01 * n)%float /\
    tr = [Write fil
            (dq "<dh from='" +:+ fra obs +:+ dq "' to='" +:+ til obs +:+ dq "' "
             +:+ dq "val='" +:+ format_f true 5 (dH obs)
             +:+ dq "' dist='" +:+ format_f false 5 dist_km
             +:+ dq "' stdev='" +:+ format_f false 2 stdev +:+ dq "'/>" +:+ nl)] /\
    (finite stdev = true ->
     exists k fr,
       0 <= k /\
       format_f false 2 stdev
       = (if signbit stdev then "-" else "") +:+ str_int k +:+ "." +:+ fr /\
       String.length fr = 2%nat) /\
    (finite stdev = false ->
     format_f false 2 stdev = "inf" \/ format_f false 2 stdev = "-inf"
     \/ format_f false 2 stdev = "nan").
Proof.
  unfold xml_obs, xml_obs_stdev.
  destruct (Py.sqrt (dist obs / 1000)) as [rod |] eqn:Hrod; [| discriminate].
  destruct (float_of_int (setups obs)) as [n |] eqn:Hn; [| discriminate].
  simpl. intros [= <-].
  exists (dist obs / 1000)%float, rod, n, (rod * 0.6 + 0.01 * n)%float.
  repeat split; try assumption; [apply format_f_2_finite | apply format_f_not_finite].
Qed.

Lemma xml_obs_stdev_formula_witness :
  xml_obs "ud.xml" obs_4km
  = ([Write "ud.xml"
        (dq "<dh from='G.1' to='P1' val='+1.25000' dist='4.00000' stdev='1.20'/>" +:+ nl)],
     inr tt) /\
  exists dist_km rod n stdev,
    dist_km = (dist obs_4km / 1000)%float /\
    Py.sqrt dist_km = Some rod /\
    float_of_int (setups obs_4km) = Some n /\
    stdev = (rod * 0.6 + 0.01 * n)%float /\
    format_f false 2 stdev = "1.20".
Proof.
  assert (Hrun : xml_obs "ud.xml" obs_4km
                 = ([Write "ud.xml"
                       (dq "<dh from='G.1' to='P1' val='+1.25000' dist='4.00000' stdev='1.20'/>"
                        +:+ nl)], inr tt))
    by (vm_compute; reflexivity).
  split; [exact Hrun |].
  destruct (xml_obs_stdev_formula _ _ _ Hrun)
    as (dist_km & rod & n & stdev & Hd & Hrod & Hn & Hs & _ & _ & _).
  exists dist_km, rod, n, stdev. repeat split; try assumption.
  subst dist_km. vm_compute in Hrod, Hn.
  injection Hrod as <-. injection Hn as <-. subst stdev. vm_compute. reflexivity.
Defined.

(** C4, counterexample: the [stdev] that is written is not always an
    unsigned number with two decimals.  On the dict of P1 and P2,
    [obs_feature] accepts an observation with -100 setups, and [xml_obs]
    writes its [stdev] as [-1.00]; it accepts the distances [inf] and
    [nan], and [xml_obs] writes their [stdev] as [inf] and [nan]. *)
Theorem xml_obs_stdev_signed_or_not_finite :
  rbind (obs_feature_1 punktinfo_P1_P2 "P1 P2 a b 0 0.5 J2 c -100")
        (fun f => inr (xml_obs "ud.xml" f))
  = inr ([Write "ud.xml"
            (dq "<dh from='P1' to='P2' val='+0.50000' dist='0.00000' stdev='-1.00'/>"
             +:+ nl)], inr tt) /\
  rbind (obs_feature_1 punktinfo_P1_P2 "P1 P2 a b inf 0.5 J2 c 1")
        (fun f => inr (xml_obs "ud.xml" f))
  = inr ([Write "ud.xml"
            (dq "<dh from='P1' to='P2' val='+0.50000' dist='inf' stdev='inf'/>" +:+ nl)],
         inr tt) /\
  rbind (obs_feature_1 punktinfo_P1_P2 "P1 P2 a b nan 0.5 J2 c 1")
        (fun f => inr (xml_obs "ud.xml" f))
  = inr ([Write "ud.xml"
            (dq "<dh from='P1' to='P2' val='+0.50000' dist='nan' stdev='nan'/>" +:+ nl)],
         inr tt).
Proof. repeat split; vm_compute; reflexivity. Qed.

(** The two values of the specification: 4 km without setups, and no
    distance with ten setups. *)
Example stdev_4km :
  xml_obs_stdev obs_4km = inr 1.2%float /\ format_f false 2 1.2 = "1.20".
Proof. split; vm_compute; reflexivity. Qed.

Example stdev_10_setups :
  rbind (xml_obs_stdev obs_10_setups) (fun x => inr (format_f false 2 x))
  = (inr "0.10" : R string).
Proof. vm_compute. reflexivity. Qed.

(** *** Resolving the points *)

Lemma writes_file_events tr : writes (file_events tr) = writes tr.
Proof. induction tr as [| [] tr IH]; simpl; rewrite ?IH; reflexivity. Qed.

(** A step of the first loop touches no file. *)
Lemma eksporter_punkt_file_events w koteid d ident :
  file_events (events (eksporter_punkt w koteid d ident)) = [].
Proof.
  unfold eksporter_punkt, punkt_information. rewrite bind_ret.
  destruct (punktinformation_first w ident) as [pinfo |]; [| reflexivity].
  unfold punkt_geometri. simpl or_raise. rewrite bind_lift_inr.
  destruct (hent_geometri_objekt w (punktid pinfo)) as [geometri |]; [| reflexivity].
  destruct (py_eval w _) as [e | geo]; [reflexivity |].
  rewrite bind_lift_inr.
  destruct geo as [| g0 [| g1 [| g2 geo]]]; try reflexivity.
  simpl. destruct (punkt_kote_loop (koordinater pinfo) koteid); reflexivity.
Qed.

Lemma eksporter_punkter_file_events w koteid idents d :
  file_events (events (eksporter_punkter w koteid idents d)) = [].
Proof.
  revert d. induction idents as [| ident idents IH]; intros d; [reflexivity |].
  simpl. rewrite bind_events, file_events_app, eksporter_punkt_file_events.
  destruct (outcome (eksporter_punkt w koteid d ident)); [reflexivity | apply IH].
Qed.

(** The first loop, when it ends normally, has printed nothing and has
    added the idents to the dict in their order, each with a tuple of four
    numbers. *)
Lemma eksporter_punkter_inr w koteid idents d tr d' :
  eksporter_punkter w koteid idents d = (tr, inr d') ->
  NoDup idents ->
  (forall i, i ∈ idents -> i ∉ map fst d) ->
  velformet d ->
  tr = [] /\ map fst d' = map fst d ++ idents /\ velformet d'.
Proof.
  revert d tr. induction idents as [| ident idents IH]; intros d tr.
  - simpl. intros [= <- <-] _ _ Hd. rewrite app_nil_r. auto.
  - simpl. intros Hrun Hnd Hfresh Hd.
    apply bind_inr in Hrun as (tr1 & d1 & tr2 & Hstep & Hrest & ->).
    apply eksporter_punkt_inr in Hstep as (pinfo & g0 & g1 & _ & -> & ->).
    apply NoDup_cons in Hnd as [Hnotin Hnd].
    rewrite dict_set_fresh in Hrest by (apply Hfresh; left).
    apply IH in Hrest as (-> & Hkeys & Hwf); [| assumption | |].
    + split; [reflexivity |]. split; [| assumption].
      rewrite Hkeys, map_app, <- app_assoc. reflexivity.
    + intros i Hi. rewrite map_app. simpl. intros Hin.
      apply elem_of_app in Hin as [Hin | Hin].
      * apply (Hfresh i); [right; assumption | assumption].
      * apply list_elem_of_singleton in Hin. subst i. contradiction.
    + apply Forall_app. split; [assumption |].
      constructor; [| constructor]. simpl. eauto.
Qed.

Lemma sorted_Permutation punkter : sorted punkter ≡ₚ elements punkter.
Proof. apply merge_sort_Permutation. Qed.

Lemma sorted_NoDup punkter : NoDup (sorted punkter).
Proof. rewrite sorted_Permutation. apply NoDup_elements. Qed.

(** The dict of a run of [eksporter] whose first loop ended normally. *)
Lemma eksporter_punkter_sorted w koteid punkter tr punktinfo :
  eksporter_punkter w koteid (sorted punkter) [] = (tr, inr punktinfo) ->
  tr = [] /\ map fst punktinfo = sorted punkter /\ velformet punktinfo.
Proof.
  intros Hrun.
  apply eksporter_punkter_inr in Hrun as (-> & Hkeys & Hwf).
  - auto.
  - apply sorted_NoDup.
  - intros i _. simpl. apply not_elem_of_nil.
  - constructor.
Qed.


Lemma koter_cons key g0 g1 H sH punktinfo :
  koter ((key, Some [g0; g1; H; sH]) :: punktinfo) = (key, H) :: koter punktinfo.
Proof. reflexivity. Qed.

Lemma koter_velformet punktinfo :
  velformet punktinfo -> map fst (koter punktinfo) = map fst punktinfo.
Proof.
  induction 1 as [| [key val] punktinfo (g0 & g1 & H & sH & Hval) _ IH];
    [reflexivity |].
  simpl in Hval. subst val. rewrite koter_cons. simpl. rewrite IH. reflexivity.
Qed.

(** *** The Gama file *)

(** [eksporter] by the stage it reaches. *)
Lemma eksporter_stages w output observationer punkter koteid :
  eksporter w output observationer punkter koteid =
  match eksporter_punkter w koteid (sorted punkter) [] with
  | (tr0, inl e) => (tr0, inl e)
  | (tr0, inr punktinfo) =>
      match open_fejl w "punkter.geojson" with
      | Some e => (tr0, inl e)
      | None =>
      match list_of (punkt_feature punktinfo) with
      | inl e => (tr0 ++ [Open "punkter.geojson"], inl e)
      | inr pf =>
          match open_fejl w "observationer.geojson" with
          | Some e =>
              (tr0 ++ [Open "punkter.geojson"; Dump "punkter.geojson" (PunktFeatures pf)],
               inl e)
          | None =>
          match list_of (obs_feature punktinfo observationer) with
          | inl e =>
              (tr0 ++ [Open "punkter.geojson"; Dump "punkter.geojson" (PunktFeatures pf);
                       Open "observationer.geojson"], inl e)
          | inr of_ =>
              match open_fejl w output with
              | Some e =>
                  (tr0 ++ [Open "punkter.geojson";
                           Dump "punkter.geojson" (PunktFeatures pf);
                           Open "observationer.geojson";
                           Dump "observationer.geojson" (ObsFeatures of_)], inl e)
              | None =>
                  (tr0 ++ [Open "punkter.geojson";
                           Dump "punkter.geojson" (PunktFeatures pf);
                           Open "observationer.geojson";
                           Dump "observationer.geojson" (ObsFeatures of_)]
                       ++ Open output :: events (gama_blok output punktinfo observationer),
                   outcome (gama_blok output punktinfo observationer))
              end
          end
          end
      end
      end
  end.
Proof.
  unfold eksporter, eksporter_gama, with_open.
  destruct (eksporter_punkter w koteid (sorted punkter) []) as [tr0 [e | punktinfo]];
    [reflexivity |].
  rewrite bind_inr_eq.
  destruct (open_fejl w "punkter.geojson") as [e |].
  { rewrite bind_raise. cbn [fst snd]. rewrite app_nil_r. reflexivity. }
  destruct (list_of (punkt_feature punktinfo)) as [e | pf].
  { rewrite bind_lift_inl. reflexivity. }
  rewrite bind_lift_inr.
  destruct (open_fejl w "observationer.geojson") as [e |].
  { rewrite bind_raise. reflexivity. }
  destruct (list_of (obs_feature punktinfo observationer)) as [e | of_].
  { rewrite bind_lift_inl. reflexivity. }
  rewrite bind_lift_inr.
  destruct (open_fejl w output) as [e |]; [reflexivity |].
  unfold events, outcome.
  destruct (gama_blok output punktinfo observationer) as [trg rg].
  reflexivity.
Qed.

(** *** Computations that only write to their file *)

Lemma uniform_ret {A} (a : A) : uniform (fun _ => ret a).
Proof. exists [], (inr a). reflexivity. Qed.

Lemma uniform_lift {A} (r : R A) : uniform (fun _ => lift r).
Proof. exists [], r. reflexivity. Qed.

Lemma uniform_write text : uniform (fun fil => emit (Write fil text)).
Proof. exists [text], (inr tt). reflexivity. Qed.

Lemma uniform_bind {A B} (f : string -> M A) (g : A -> string -> M B) :
  uniform f -> (forall a, uniform (g a)) ->
  uniform (fun fil => bind (f fil) (fun a => g a fil)).
Proof.
  intros (ts1 & r1 & Hf) Hg. destruct r1 as [e | a].
  - exists ts1, (inl e). intros fil. rewrite Hf. reflexivity.
  - destruct (Hg a) as (ts2 & r2 & Hga).
    exists (ts1 ++ ts2), r2. intros fil. rewrite Hf. simpl. rewrite Hga, map_app.
    reflexivity.
Qed.

Lemma uniform_for_each {A} (l : list A) (body : string -> A -> M unit) :
  (forall a, uniform (fun fil => body fil a)) ->
  uniform (fun fil => for_each l (body fil)).
Proof.
  intros Hbody. induction l as [| a l IH]; simpl.
  - apply uniform_ret.
  - apply (uniform_bind (fun fil => body fil a) (fun _ fil => for_each l (body fil)));
      auto.
Qed.

Lemma uniform_for_gen {A} (g : generator A) (body : string -> A -> M unit) :
  (forall a, uniform (fun fil => body fil a)) ->
  uniform (fun fil => for_gen g (body fil)).
Proof.
  intros Hbody. induction g as [| r g IH]; simpl.
  - apply uniform_ret.
  - apply (uniform_bind (fun _ => lift r)
             (fun a fil => bind (body fil a) (fun _ => for_gen g (body fil)))).
    + apply uniform_lift.
    + intros a.
      apply (uniform_bind (fun fil => body fil a) (fun _ fil => for_gen g (body fil)));
        auto.
Qed.

Lemma uniform_xml_point fix_ key val : uniform (fun fil => xml_point fil fix_ key val).
Proof.
  unfold xml_point.
  apply (uniform_bind (fun _ => lift (or_raise TypeError val))
           (fun val fil => bind (lift (index val 2))
                             (fun z_ => emit (Write fil (xml_point_text fix_ key z_))))).
  - apply uniform_lift.
  - intros l.
    apply (uniform_bind (fun _ => lift (index l 2))
             (fun z_ fil => emit (Write fil (xml_point_text fix_ key z_)))).
    + apply uniform_lift.
    + intros z_. apply uniform_write.
Qed.

Lemma uniform_xml_obs obs : uniform (fun fil => xml_obs fil obs).
Proof.
  unfold xml_obs.
  apply (uniform_bind (fun _ => lift (xml_obs_stdev obs))
           (fun stdev fil => emit (Write fil (xml_obs_text obs stdev)))).
  - apply uniform_lift.
  - intros stdev. apply uniform_write.
Qed.

(** The block that writes the Gama file writes to [output] only; what it
    writes and how it ends do not depend on [output]. *)
Lemma gama_blok_uniform punktinfo observationer :
  uniform (fun output => gama_blok output punktinfo observationer).
Proof.
  unfold gama_blok.
  repeat (first
      [ apply uniform_write
      | apply (uniform_for_each punktinfo
                 (fun output '(key, val) =>
                    if startswith key "G." then xml_point output true key val else ret tt));
        intros [key val]; destruct (startswith key "G.");
        [apply uniform_xml_point | apply uniform_ret]
      | apply (uniform_for_each punktinfo
                 (fun output '(key, val) =>
                    if negb (startswith key "G.") then xml_point output false key val
                    else ret tt));
        intros [key val]; destruct (negb (startswith key "G."));
        [apply uniform_xml_point | apply uniform_ret]
      | apply (uniform_for_gen (obs_feature punktinfo observationer)
                 (fun output obs => xml_obs output obs));
        intros obs; apply uniform_xml_obs
      | apply (uniform_bind _ (fun _ fil => _)); [| intros _] ]).
Qed.

(** *** The points in the Gama file *)

(** A loop of [eksporter] over the dict writes one [point] element for
    every key that passes its test, in the order of the dict. *)
Lemma for_each_points output fix_ (test : string -> bool) punktinfo :
  velformet punktinfo ->
  for_each punktinfo (fun '(key, val) =>
    if test key then xml_point output fix_ key val else ret tt)
  = (map (Write output)
       (point_elements fix_ (filter (fun kz => test kz.1 = true) (koter punktinfo))),
     inr tt).
Proof.
  induction 1 as [| [key val] punktinfo (g0 & g1 & H & sH & Hval) _ IH];
    [reflexivity |].
  simpl in Hval. subst val. rewrite koter_cons, filter_cons.
  cbn [for_each fst]. rewrite IH.
  destruct (test key) eqn:Htest.
  - rewrite decide_True by reflexivity. reflexivity.
  - rewrite decide_False by discriminate. reflexivity.
Qed.

Lemma er_point_xml_point_text fix_ key z_ : er_point (xml_point_text fix_ key z_).
Proof. unfold er_point, xml_point_text. apply startswith_append. Qed.

Lemma not_er_point_xml_obs_text obs stdev : ~ er_point (xml_obs_text obs stdev).
Proof. unfold er_point. intros H. discriminate H. Qed.

(** What the loop over the observations and the postamble write has no
    [point] element. *)
Lemma for_gen_xml_obs_no_point output g :
  Forall (fun text => ~ er_point text)
    (writes (events (do_ for_gen g (xml_obs output); xml_postamble output))).
Proof.
  induction g as [| r g IH].
  - simpl. constructor; [| constructor]. intros H. discriminate H.
  - cbn [for_gen]. destruct r as [e | obs]; [constructor |].
    rewrite bind_lift_inr. unfold xml_obs at 1.
    destruct (xml_obs_stdev obs) as [e | stdev]; [constructor |].
    rewrite bind_lift_inr.
    change (Forall (fun text => ~ er_point text)
              (writes (events
                 (bind (bind (emit (Write output (xml_obs_text obs stdev)))
                          (fun _ => for_gen g (xml_obs output)))
                       (fun _ => xml_postamble output))))).
    rewrite bind_emit.
    destruct (for_gen g (xml_obs output)) as [trg [e | []]] eqn:Hg.
    + simpl. simpl in IH. constructor; [apply not_er_point_xml_obs_text |].
      exact IH.
    + cbn [fst snd]. rewrite bind_inr_eq. rewrite bind_inr_eq in IH.
      simpl. constructor; [apply not_er_point_xml_obs_text |]. exact IH.
Qed.

Lemma filter_all {A} (P : A -> Prop) `{!forall x, Decision (P x)} (l : list A) :
  Forall P l -> filter P l = l.
Proof.
  induction 1 as [| x l Hx _ IH]; [reflexivity |].
  rewrite filter_cons, decide_True by assumption. rewrite IH. reflexivity.
Qed.

Lemma filter_none {A} (P : A -> Prop) `{!forall x, Decision (P x)} (l : list A) :
  Forall (fun x => ~ P x) l -> filter P l = [].
Proof.
  induction 1 as [| x l Hx _ IH]; [reflexivity |].
  rewrite filter_cons, decide_False by assumption. exact IH.
Qed.

Lemma er_point_point_elements fix_ items : Forall er_point (point_elements fix_ items).
Proof.
  induction items as [| [key z_] items IH]; constructor;
    [apply er_point_xml_point_text | exact IH].
Qed.

Lemma writes_bind_inr {A B} (m : M A) tr a (k : A -> M B) :
  m = (tr, inr a) ->
  writes (events (bind m k)) = writes tr ++ writes (events (k a)).
Proof.
  intros ->. rewrite bind_inr_eq. unfold events. simpl. apply writes_app.
Qed.

(** The texts of the block that writes the Gama file, for a dict as the
    first loop builds it. *)
Lemma gama_blok_writes output punktinfo observationer :
  velformet punktinfo ->
  writes (events (gama_blok output punktinfo observationer))
  = xml_preamble_text :: xml_description_text "bla bla bla" :: xml_fixed_points_text
    :: point_elements true (filter (fun kz => fast kz.1) (koter punktinfo))
    ++ xml_adjusted_points_text
    :: point_elements false (filter (fun kz => ~ fast kz.1) (koter punktinfo))
    ++ xml_observations_text
    :: writes (events (do_ for_gen (obs_feature punktinfo observationer) (xml_obs output);
                       xml_postamble output)).
Proof.
  intros Hwf. unfold gama_blok.
  rewrite (writes_bind_inr (xml_preamble output) _ tt _ eq_refl).
  rewrite (writes_bind_inr (xml_description output "bla bla bla") _ tt _ eq_refl).
  rewrite (writes_bind_inr (xml_fixed_points output) _ tt _ eq_refl).
  rewrite (writes_bind_inr _ _ tt _
             (for_each_points output true (fun key => startswith key "G.") _ Hwf)).
  rewrite (writes_bind_inr (xml_adjusted_points output) _ tt _ eq_refl).
  rewrite (writes_bind_inr _ _ tt _
             (for_each_points output false (fun key => negb (startswith key "G.")) _ Hwf)).
  rewrite (writes_bind_inr (xml_observations output) _ tt _ eq_refl).
  rewrite !writes_map_Write. cbn [writes app].
  do 3 f_equal. unfold fast. f_equal. f_equal. f_equal. f_equal.
  apply list_filter_iff.
  intros [key z_]. simpl. destruct (startswith key "G."); simpl; split; congruence.
Qed.

(** No text is written before the block of the Gama file is entered. *)
Lemma eksporter_writes w output observationer punkter koteid :
  writes (events (eksporter w output observationer punkter koteid)) <> [] ->
  exists punktinfo,
    eksporter_punkter w koteid (sorted punkter) [] = ([], inr punktinfo) /\
    writes (events (eksporter w output observationer punkter koteid))
    = writes (events (gama_blok output punktinfo observationer)).
Proof.
  rewrite eksporter_stages.
  pose proof (eksporter_punkter_file_events w koteid (sorted punkter) []) as Hfiles.
  destruct (eksporter_punkter w koteid (sorted punkter) []) as [tr0 [e | punktinfo]] eqn:Hrun.
  - unfold events in *. simpl in *. rewrite <- writes_file_events, Hfiles.
    intros H. exfalso. apply H. reflexivity.
  - apply eksporter_punkter_sorted in Hrun as Hprops. destruct Hprops as (-> & _ & _).
    destruct (open_fejl w "punkter.geojson");
      [intros H; exfalso; apply H; reflexivity |].
    destruct (list_of (punkt_feature punktinfo)) as [e | pf];
      [intros H; exfalso; apply H; reflexivity |].
    destruct (open_fejl w "observationer.geojson");
      [intros H; exfalso; apply H; reflexivity |].
    destruct (list_of (obs_feature punktinfo observationer)) as [e | of_];
      [intros H; exfalso; apply H; reflexivity |].
    destruct (open_fejl w output);
      [intros H; exfalso; apply H; reflexivity |].
    intros _. exists punktinfo. split; reflexivity.
Qed.

(** C5: in the Gama file every resolved point is one [point] element.
    The texts written are the preamble, the description, the header of the
    fixed points, the elements with [fix="Z"], the header of the adjusted
    points, the elements with [adj="z"], the header of the observations and
    the rest.  The elements with [fix="Z"] are those of the keys with the
    prefix [G.], the elements with [adj="z"] those of the other keys, both in
    the order of the dict; together the keys are the identifiers of the
    set, each once; and the [point] elements of the file are these and no
    others. *)
Theorem eksporter_points_once w output observationer punkter koteid :
  writes (events (eksporter w output observationer punkter koteid)) <> [] ->
  exists punktinfo fixed adjusted rest,
    eksporter_punkter w koteid (sorted punkter) [] = ([], inr punktinfo) /\
    fixed = filter (fun kz => fast kz.1) (koter punktinfo) /\
    adjusted = filter (fun kz => ~ fast kz.1) (koter punktinfo) /\
    writes (events (eksporter w output observationer punkter koteid))
    = xml_preamble_text :: xml_description_text "bla bla bla" :: xml_fixed_points_text
      :: point_elements true fixed
      ++ xml_adjusted_points_text
      :: point_elements false adjusted
      ++ xml_observations_text :: rest /\
    map fst (fixed ++ adjusted) ≡ₚ elements punkter /\
    NoDup (map fst (fixed ++ adjusted)) /\
    filter er_point (writes (events (eksporter w output observationer punkter koteid)))
    = point_elements true fixed ++ point_elements false adjusted.
Proof.
  intros Hw. destruct (eksporter_writes _ _ _ _ _ Hw) as (punktinfo & Hrun & Heq).
  apply eksporter_punkter_sorted in Hrun as Hprops. destruct Hprops as (_ & Hkeys & Hwf).
  pose proof (gama_blok_writes output punktinfo observationer Hwf) as Hgama.
  pose proof (for_gen_xml_obs_no_point output (obs_feature punktinfo observationer))
    as Hrest.
  set (rest := writes (events (do_ for_gen (obs_feature punktinfo observationer)
                                     (xml_obs output); xml_postamble output))) in *.
  assert (Hperm : map fst (filter (fun kz => fast kz.1) (koter punktinfo)
                           ++ filter (fun kz => ~ fast kz.1) (koter punktinfo))
                  ≡ₚ elements punkter).
  { rewrite filter_app_complement, (koter_velformet _ Hwf), Hkeys.
    apply sorted_Permutation. }
  exists punktinfo, (filter (fun kz => fast kz.1) (koter punktinfo)),
    (filter (fun kz => ~ fast kz.1) (koter punktinfo)), rest.
  split; [exact Hrun |]. split; [reflexivity |]. split; [reflexivity |].
  split; [rewrite Heq; exact Hgama |].
  split; [exact Hperm |].
  split; [rewrite Hperm; apply NoDup_elements |].
  rewrite Heq, Hgama.
  rewrite !filter_cons_False by (intros H; discriminate H).
  rewrite filter_app, filter_cons_False by (intros H; discriminate H).
  rewrite filter_app, filter_cons_False by (intros H; discriminate H).
  rewrite (filter_none er_point rest Hrest), app_nil_r.
  rewrite (filter_all er_point _ (er_point_point_elements true _)).
  rewrite (filter_all er_point _ (er_point_point_elements false _)).
  reflexivity.
Qed.





Lemma eksporter_points_once_witness :
  filter er_point
    (writes (events (eksporter verden_eks "ud.xml" observationer_eks punkter_eks dvr90_id)))
  = [ dq "<point fix='Z' id='G.1' z='31.5'/>" +:+ nl;
      dq "<point adj='z' id='P1' z='0'/>" +:+ nl;
      dq "<point adj='z' id='P2' z='0'/>" +:+ nl ] /\
  exists punktinfo fixed adjusted rest,
    eksporter_punkter verden_eks dvr90_id (sorted punkter_eks) [] = ([], inr punktinfo) /\
    fixed = filter (fun kz => fast kz.1) (koter punktinfo) /\
    adjusted = filter (fun kz => ~ fast kz.1) (koter punktinfo) /\
    writes (events (eksporter verden_eks "ud.xml" observationer_eks punkter_eks dvr90_id))
    = xml_preamble_text :: xml_description_text "bla bla bla" :: xml_fixed_points_text
      :: point_elements true fixed
      ++ xml_adjusted_points_text
      :: point_elements false adjusted
      ++ xml_observations_text :: rest /\
    map fst (fixed ++ adjusted) ≡ₚ elements punkter_eks /\
    NoDup (map fst (fixed ++ adjusted)) /\
    filter er_point
      (writes (events (eksporter verden_eks "ud.xml" observationer_eks punkter_eks dvr90_id)))
    = point_elements true fixed ++ point_elements false adjusted.
Proof.
  split; [vm_compute; reflexivity |].
  apply (eksporter_points_once verden_eks "ud.xml" observationer_eks punkter_eks dvr90_id).
  intros H. vm_compute in H. discriminate H.
Defined.

(** *** The sample run *)

(** The reading loop on the sample file. *)
Example gamaficer_filer_eks :
  gamaficer_filer ([], ∅) [fil_eks] = ((observationer_eks, punkter_eks), None).
Proof. vm_compute. reflexivity. Qed.

(** The run on the sample file: the three output files, the default name
    of the Gama file, and the height differences in it. *)
Example gamaficer_eks :
  outcome (gamaficer verden_eks [fil_eks] "") = inr tt /\
  opened (events (gamaficer verden_eks [fil_eks] ""))
  = ["punkter.geojson"; "observationer.geojson"; "KDI2018vest.xml"] /\
  filter (fun text => startswith text "<dh " = true)
    (writes (events (gamaficer verden_eks [fil_eks] "")))
  = [ dq "<dh from='G.1' to='P1' val='+1.25000' dist='4.00000' stdev='1.20'/>" +:+ nl;
      dq "<dh from='P1' to='P2' val='-0.50000' dist='0.00000' stdev='0.10'/>" +:+ nl;
      dq "<dh from='P2' to='G.1' val='-0.75000' dist='0.25000' stdev='0.33'/>" +:+ nl ].
Proof. repeat split; vm_compute; reflexivity. Qed.

(** *** Input that the reading loop accepts *)

(** When no line is empty and every line with a hash mark has nine tokens,
    the reading loop ends without an exception, the set of identifiers is
    the union of the first two tokens over the lines with a hash mark, and
    any other arrangement of the same lines in files gives the same set. *)
Theorem gamaficer_accepted_input_ident_set filnavne :
  Forall linje_ok (alle_linjer filnavne) ->
  (gamaficer_filer ([], ∅) filnavne).2 = None /\
  (gamaficer_filer ([], ∅) filnavne).1.2 = ⋃ (linje_identer <$> alle_linjer filnavne) /\
  forall filnavne',
    alle_linjer filnavne' ≡ₚ alle_linjer filnavne ->
    (gamaficer_filer ([], ∅) filnavne').1.2 = (gamaficer_filer ([], ∅) filnavne).1.2.
Proof.
  intros Hok. destruct (gamaficer_filer_punkter _ Hok) as [Hset Hnone].
  split; [exact Hnone |]. split; [exact Hset |].
  intros filnavne' Hperm. symmetry. apply gamaficer_filer_order; [| exact Hok].
  symmetry. exact Hperm.
Qed.

Lemma gamaficer_accepted_input_ident_set_witness :
  (gamaficer_filer ([], ∅) [fil_eks]).2 = None /\
  (gamaficer_filer ([], ∅) [fil_eks]).1.2 = ⋃ (linje_identer <$> alle_linjer [fil_eks]) /\
  forall filnavne',
    alle_linjer filnavne' ≡ₚ alle_linjer [fil_eks] ->
    (gamaficer_filer ([], ∅) filnavne').1.2 = (gamaficer_filer ([], ∅) [fil_eks]).1.2.
Proof.
  apply (gamaficer_accepted_input_ident_set [fil_eks]).
  repeat constructor; vm_compute; reflexivity.
Defined.

(** *** The lookups, in general *)

(** X2: [hent_sridid] gives [n] exactly when either no row of the table is
    called [srid] and [n] is 0, or [n] is the [sridid] of the first row that
    is called [srid]: rows after the first match are never looked at, and 0
    stands for a missing name (or is the id of the first match itself). *)
Theorem hent_sridid_first_match srider srid n :
  hent_sridid srider srid = n <->
  (n = 0 /\ Forall (fun s => srid_name s <> srid) srider) \/
  (exists pre s post,
     srider = pre ++ s :: post /\
     Forall (fun t => srid_name t <> srid) pre /\
     srid_name s = srid /\ srid_sridid s = n).
Proof.
  revert n. induction srider as [| s srider IH]; intros n; simpl.
  - split.
    + intros <-. left. split; [reflexivity | constructor].
    + intros [[-> _] | (pre & s & post & Heq & _)]; [reflexivity |].
      destruct pre; discriminate Heq.
  - destruct (String.eqb_spec (srid_name s) srid) as [Hname | Hname].
    + split.
      * intros <-. right. exists [], s, srider. repeat split; auto.
      * intros [[_ Hall] | (pre & s' & post & Heq & Hpre & Hs' & <-)].
        -- apply Forall_cons in Hall as [Hs _]. contradiction.
        -- destruct pre as [| t pre]; simpl in Heq.
           ++ injection Heq as <- _. reflexivity.
           ++ injection Heq as <- _. apply Forall_cons in Hpre as [Ht _]. contradiction.
    + rewrite IH. split.
      * intros [[-> Hall] | (pre & s' & post & -> & Hpre & Hs' & Hn)].
        -- left. split; [reflexivity | constructor; assumption].
        -- right. exists (s :: pre), s', post. repeat split; auto.
      * intros [[-> Hall] | (pre & s' & post & Heq & Hpre & Hs' & Hn)].
        -- left. apply Forall_cons in Hall as [_ Hall]. auto.
        -- destruct pre as [| t pre]; simpl in Heq.
           ++ injection Heq as <- _. contradiction.
           ++ injection Heq as <- ->. apply Forall_cons in Hpre as [_ Hpre].
              right. exists pre, s', post. auto.
Qed.

(** X3: [punkt_kote] on a point gives [None] exactly when its history has
    no current row of the height system, and otherwise the first current
    row in the order of the history: with several current rows the later
    ones are never returned. *)
Theorem punkt_kote_first_current pinfo koteid r :
  punkt_kote (Some pinfo) koteid = inr r <->
  (r = None /\ Forall (fun koord => ~ aktuel koteid koord) (koordinater pinfo)) \/
  (exists pre koord post,
     koordinater pinfo = pre ++ koord :: post /\
     Forall (fun k => ~ aktuel koteid k) pre /\
     aktuel koteid koord /\ r = Some koord).
Proof.
  unfold punkt_kote. simpl.
  assert (Hloop : forall koords r,
    punkt_kote_loop koords koteid = r <->
    (r = None /\ Forall (fun koord => ~ aktuel koteid koord) koords) \/
    (exists pre koord post,
       koords = pre ++ koord :: post /\
       Forall (fun k => ~ aktuel koteid k) pre /\
       aktuel koteid koord /\ r = Some koord)).
  { clear r. induction koords as [| k koords IH]; intros r; simpl.
    - split.
      + intros <-. left. split; [reflexivity | constructor].
      + intros [[-> _] | (pre & koord & post & Heq & _)]; [reflexivity |].
        destruct pre; discriminate Heq.
    - destruct (decide (aktuel koteid k)) as [Hk | Hk].
      + destruct Hk as [Hs Hr]. rewrite Hs, Z.eqb_refl, Hr. simpl. split.
        * intros <-. right. exists [], k, koords. repeat split; auto.
        * intros [[_ Hall] | (pre & koord & post & Heq & Hpre & Hkoord & ->)].
          -- apply Forall_cons in Hall as [Hn _]. destruct Hn. split; assumption.
          -- destruct pre as [| t pre]; simpl in Heq.
             ++ injection Heq as <- _. reflexivity.
             ++ injection Heq as <- _. apply Forall_cons in Hpre as [Hn _].
                destruct Hn. split; assumption.
      + assert (Hstep : (if negb (sridid k =? koteid)
                         then punkt_kote_loop koords koteid
                         else match registreringtil k with
                              | Some _ => punkt_kote_loop koords koteid
                              | None => Some k
                              end) = punkt_kote_loop koords koteid).
        { destruct (Z.eqb_spec (sridid k) koteid) as [Hs | Hs]; simpl; [| reflexivity].
          destruct (registreringtil k) eqn:Hr; [reflexivity |].
          destruct Hk. split; assumption. }
        rewrite Hstep, IH. split.
        * intros [[-> Hall] | (pre & koord & post & -> & Hpre & Hkoord & Hr)].
          -- left. split; [reflexivity | constructor; assumption].
          -- right. exists (k :: pre), koord, post.
             split; [reflexivity |]. split; [constructor; assumption |].
             split; assumption.
        * intros [[-> Hall] | (pre & koord & post & Heq & Hpre & Hkoord & Hr)].
          -- left. apply Forall_cons in Hall as [_ Hall]. auto.
          -- destruct pre as [| t pre]; simpl in Heq.
             ++ injection Heq as <- _. contradiction.
             ++ injection Heq as <- ->. apply Forall_cons in Hpre as [_ Hpre].
                right. exists pre, koord, post. auto. }
  rewrite <- Hloop. split; [intros [= <-]; reflexivity | intros ->; reflexivity].
Qed.

(** *** The run on accepted input *)

Lemma gamaficer_linje_obs st line :
  linje_ok line ->
  gamaficer_linje st line = inr (st.1 ++ linje_obs line, linje_identer line ∪ st.2).
Proof.
  destruct st as [observationer punkter].
  unfold gamaficer_linje, linje_ok, linje_identer, linje_obs.
  destruct line as [| c rest]; [intros [] |].
  destruct (Ascii.eqb "#" c); cbn [negb fst snd].
  - intros Hlen.
    destruct (split (strip (lstrip_chars "#" (String c rest))))
      as [| t0 [| t1 [| t2 [| t3 [| t4 [| t5 [| t6 [| t7 [| t8 [| t9 l]]]]]]]]]];
      try discriminate Hlen.
    f_equal. f_equal. set_solver.
  - intros _. rewrite app_nil_r. f_equal. f_equal. set_solver.
Qed.

Lemma gamaficer_linjer_obs st ls :
  Forall linje_ok ls ->
  gamaficer_linjer st ls
  = ((st.1 ++ signifikante ls, ⋃ (linje_identer <$> ls) ∪ st.2), None).
Proof.
  intros Hok. revert st. induction Hok as [| line ls Hline _ IH]; intros st.
  - destruct st as [o p]. unfold signifikante. simpl. rewrite app_nil_r.
    f_equal. f_equal. set_solver.
  - simpl. rewrite (gamaficer_linje_obs st line Hline), IH. simpl.
    unfold signifikante. simpl. rewrite <- app_assoc. f_equal. f_equal. set_solver.
Qed.

Lemma gamaficer_filer_obs st filnavne :
  Forall linje_ok (alle_linjer filnavne) ->
  gamaficer_filer st filnavne
  = ((st.1 ++ signifikante (alle_linjer filnavne),
      ⋃ (linje_identer <$> alle_linjer filnavne) ∪ st.2), None).
Proof.
  revert st. induction filnavne as [| f filnavne IH]; intros st Hok.
  - destruct st as [o p]. unfold signifikante. simpl. rewrite app_nil_r.
    f_equal. f_equal. set_solver.
  - unfold alle_linjer in Hok. simpl in Hok. apply Forall_app in Hok as [Hf Hrest].
    simpl. rewrite (gamaficer_linjer_obs st (lines f) Hf), (IH _ Hrest). simpl.
    unfold alle_linjer, signifikante. simpl.
    rewrite map_app, concat_app, fmap_app, union_list_app_L, <- app_assoc.
    f_equal. f_equal. set_solver.
Qed.

(** X4: on input in which no line is empty and every line with a hash mark
    has nine tokens, [gamaficer] prints nothing and is [eksporter] on the
    output name, the texts of the lines with a hash mark (without the hash
    marks and the blanks around, in reading order over the files), their
    identifiers, and the id of EPSG:5799; lines without a hash mark count
    for nothing. *)
Theorem gamaficer_accepted_input_run w filnavne output out :
  Forall linje_ok (alle_linjer filnavne) ->
  gamaficer_output filnavne output = inr out ->
  hent_sridid (hent_srider w) "EPSG:5799" <> 0 ->
  gamaficer w filnavne output
  = eksporter w out (signifikante (alle_linjer filnavne))
      (⋃ (linje_identer <$> alle_linjer filnavne))
      (hent_sridid (hent_srider w) "EPSG:5799").
Proof.
  intros Hok Hout Hsrid. unfold gamaficer. rewrite Hout, bind_lift_inr.
  unfold gamaficer_laes. rewrite (gamaficer_filer_obs _ _ Hok).
  cbn [fst snd app]. rewrite !bind_ret.
  replace (⋃ (linje_identer <$> alle_linjer filnavne) ∪ ∅)
    with (⋃ (linje_identer <$> alle_linjer filnavne) : gset string) by set_solver.
  destruct (Z.eqb_spec (hent_sridid (hent_srider w) "EPSG:5799") 0) as [E | _];
    [contradiction | reflexivity].
Qed.

Lemma gamaficer_accepted_input_run_witness :
  signifikante (alle_linjer [fil_eks]) = observationer_eks /\
  gamaficer verden_eks [fil_eks] ""
  = eksporter verden_eks "KDI2018vest.xml" (signifikante (alle_linjer [fil_eks]))
      (⋃ (linje_identer <$> alle_linjer [fil_eks]))
      (hent_sridid (hent_srider verden_eks) "EPSG:5799").
Proof.
  split; [reflexivity |].
  apply (gamaficer_accepted_input_run verden_eks [fil_eks] "" "KDI2018vest.xml").
  - repeat constructor; vm_compute; reflexivity.
  - reflexivity.
  - discriminate.
Defined.

(** *** The name of the output file *)

Lemma mem_char_app c s t : mem_char c (s +:+ t) = mem_char c s || mem_char c t.
Proof.
  induction s as [| a s IH]; [reflexivity |].
  rewrite append_cons. simpl. destruct (Ascii.eqb c a); [reflexivity | exact IH].
Qed.

Lemma rfind_go_absent c s i found : mem_char c s = false -> rfind_go c s i found = found.
Proof.
  revert i found. induction s as [| a s IH]; intros i found; simpl; [reflexivity |].
  rewrite (Ascii.eqb_sym a c). destruct (Ascii.eqb c a); [discriminate |].
  intros H. apply IH. exact H.
Qed.

Lemma rfind_go_app c s t i found :
  rfind_go c (s +:+ t) i found
  = rfind_go c t (i + Z.of_nat (String.length s)) (rfind_go c s i found).
Proof.
  revert i found. induction s as [| a s IH]; intros i found.
  - simpl. rewrite Z.add_0_r. reflexivity.
  - rewrite append_cons. cbn [rfind_go String.length]. rewrite IH. f_equal. lia.
Qed.

Lemma substring_skip a b n :
  String.substring (String.length a) n (a +:+ b) = String.substring 0 n b.
Proof. induction a as [| c a IH]; [reflexivity |]. rewrite append_cons. simpl. exact IH. Qed.

(** X5: the default name of the Gama file.  When [-o] is not given and the
    first input file is called [dir + base + "." + ext], where [dir] is
    empty or ends in a slash, [base] starts with a character that is no dot
    and has no slash, and [ext] has neither a dot nor a slash, the output
    name is [dir + base + ".xml"]: the last extension of the first file is
    replaced, in the directory of that file.  A name given with [-o] is
    used as it is. *)
Theorem gamaficer_output_default f filnavne dir c base ext :
  name f = dir +:+ String c base +:+ "." +:+ ext ->
  dir = "" \/ (exists d, dir = d +:+ "/") ->
  c <> "."%char ->
  mem_char "/" (String c base) = false ->
  mem_char "/" ext = false ->
  mem_char "." ext = false ->
  gamaficer_output (f :: filnavne) "" = inr (dir +:+ String c base +:+ ".xml") /\
  forall output, output <> "" -> gamaficer_output (f :: filnavne) output = inr output.
Proof.
  intros Hname Hdir Hc Hbase Hext_s Hext_d. split.
  2:{ intros output Hout. unfold gamaficer_output.
      destruct (String.eqb_spec output "") as [-> | _]; [contradiction | reflexivity]. }
  unfold gamaficer_output. simpl String.eqb.
  change (index (f :: filnavne) 0) with (inr f : R fil). cbn [rbind].
  assert (Hstdin : String.eqb (name f) "<stdin>" = false).
  { apply String.eqb_neq. intros Heq.
    assert (Hdot : mem_char "." (name f) = true).
    { rewrite Hname, !mem_char_app. simpl. rewrite orb_true_r. destruct (mem_char "." dir);
        [reflexivity |]. simpl. destruct (mem_char "." (String c base)); reflexivity. }
    rewrite Heq in Hdot. discriminate Hdot. }
  rewrite Hstdin. f_equal.
  rewrite <- !append_assoc. f_equal.
  assert (Hsep : rfind "/" (name f) = Z.of_nat (String.length dir) - 1).
  { unfold rfind. rewrite Hname, rfind_go_app.
    rewrite (rfind_go_absent "/" (String c base +:+ "." +:+ ext)).
    - destruct Hdir as [-> | [d ->]]; [reflexivity |].
      rewrite rfind_go_app. cbn [rfind_go].
      change (Ascii.eqb "/" "/") with true. cbn iota. rewrite length_append.
      cbn [String.length]. rewrite Nat2Z.inj_add. change (Z.of_nat 1) with 1. lia.
    - rewrite !mem_char_app, Hbase, Hext_s. reflexivity. }
  assert (Hdotix : rfind "." (name f)
                   = Z.of_nat (String.length (dir +:+ String c base))).
  { unfold rfind.
    rewrite Hname, <- (append_assoc dir (String c base) ("." +:+ ext)), rfind_go_app.
    change ("." +:+ ext) with (String "." ext). cbn [rfind_go].
    change (Ascii.eqb "." ".") with true. cbn iota.
    rewrite (rfind_go_absent "." ext) by exact Hext_d. lia. }
  unfold splitext_root. rewrite Hsep, Hdotix.
  assert (Hlt : (Z.of_nat (String.length dir) - 1
                 <? Z.of_nat (String.length (dir +:+ String c base))) = true).
  { apply Z.ltb_lt. rewrite length_append. lia. }
  rewrite Hlt. cbn [splitext_scan].
  replace (Z.of_nat (String.length dir) - 1 + 1) with (Z.of_nat (String.length dir)) by lia.
  assert (Hlt2 : (Z.of_nat (String.length dir)
                  <? Z.of_nat (String.length (dir +:+ String c base))) = true).
  { apply Z.ltb_lt. rewrite length_append. simpl. lia. }
  rewrite Hlt2.
  assert (Hfirst : slice (Z.of_nat (String.length dir)) (Z.of_nat (String.length dir) + 1)
                     (name f) = String c "").
  { unfold slice. rewrite Nat2Z.id.
    replace (Z.to_nat (Z.of_nat (String.length dir) + 1 - Z.of_nat (String.length dir)))
      with 1%nat by lia.
    rewrite Hname, substring_skip. simpl. destruct (base +:+ "." +:+ ext); reflexivity. }
  rewrite Hfirst.
  assert (Hneq : String.eqb (String c "") "." = false).
  { apply String.eqb_neq. intros [= ->]. contradiction. }
  rewrite Hneq. unfold slice. rewrite Z.sub_0_r, Nat2Z.id. simpl Z.to_nat.
  rewrite Hname, <- (append_assoc dir (String c base) ("." +:+ ext)).
  apply substring_append.
Qed.

Lemma gamaficer_output_default_witness :
  gamaficer_output [ {| name := "maalinger/2018/KDI2018.vest.txt"; lines := [] |} ] ""
  = inr "maalinger/2018/KDI2018.vest.xml" /\
  forall output, output <> "" ->
    gamaficer_output [ {| name := "maalinger/2018/KDI2018.vest.txt"; lines := [] |} ] output
    = inr output.
Proof.
  apply (gamaficer_output_default
           {| name := "maalinger/2018/KDI2018.vest.txt"; lines := [] |} []
           "maalinger/2018/" "K" "DI2018.vest" "txt");
    try reflexivity.
  - right. exists "maalinger/2018". reflexivity.
  - discriminate.
Defined.

(** *** What the dict of the points holds *)

Lemma eksporter_punkt_opslag w koteid d ident tr d' :
  eksporter_punkt w koteid d ident = (tr, inr d') ->
  exists val, opslag w koteid ident val /\ d' = dict_set d ident (Some val).
Proof.
  unfold eksporter_punkt, punkt_information. rewrite bind_ret.
  destruct (punktinformation_first w ident) as [pinfo |] eqn:Hpi; [| discriminate].
  unfold punkt_geometri. simpl or_raise. rewrite bind_lift_inr.
  destruct (hent_geometri_objekt w (punktid pinfo)) as [geometri |] eqn:Hgeo;
    [| discriminate].
  destruct (py_eval w _) as [e | geo] eqn:Heval; [discriminate |].
  rewrite bind_lift_inr.
  destruct geo as [| g0 [| g1 [| g2 geo]]]; try discriminate.
  simpl. unfold opslag, kote_par.
  destruct (punkt_kote_loop (koordinater pinfo) koteid) as [kote |] eqn:Hk;
    intros [= <- <-]; eexists; (split; [exists pinfo, geometri, g0, g1 |]);
    rewrite ?Hpi, ?Hk; auto.
Qed.

Lemma dict_get_elem {V} (d : dict V) k v :
  NoDup (map fst d) -> (k, v) ∈ d -> dict_get d k = Some v.
Proof.
  induction d as [| [k' v'] d IH]; simpl; intros Hnd Hin.
  - apply elem_of_nil in Hin. contradiction.
  - apply NoDup_cons in Hnd as [Hnotin Hnd].
    apply elem_of_cons in Hin as [[= -> ->] | Hin].
    + rewrite String.eqb_refl. reflexivity.
    + destruct (String.eqb_spec k' k) as [-> | _]; [| auto].
      exfalso. apply Hnotin. apply (list_elem_of_fmap_2 fst _ (k, v)). exact Hin.
Qed.

Lemma dict_get_absent {V} (d : dict V) k : k ∉ map fst d -> dict_get d k = None.
Proof.
  induction d as [| [k' v'] d IH]; simpl; intros Hk; [reflexivity |].
  apply not_elem_of_cons in Hk as [Hne Hk].
  destruct (String.eqb_spec k' k) as [-> | _]; [congruence | auto].
Qed.

(** The first loop keeps the dict to what the database gives. *)
Lemma eksporter_punkter_opslag w koteid idents d tr d' :
  eksporter_punkter w koteid idents d = (tr, inr d') ->
  NoDup idents ->
  (forall i, i ∈ idents -> i ∉ map fst d) ->
  Forall (fun item : string * option (list pynum) =>
            exists val, item.2 = Some val /\ opslag w koteid item.1 val) d ->
  Forall (fun item : string * option (list pynum) =>
            exists val, item.2 = Some val /\ opslag w koteid item.1 val) d'.
Proof.
  revert d tr. induction idents as [| ident idents IH]; intros d tr.
  - simpl. intros [= <- <-] _ _ Hd. exact Hd.
  - simpl. intros Hrun Hnd Hfresh Hd.
    apply bind_inr in Hrun as (tr1 & d1 & tr2 & Hstep & Hrest & ->).
    apply eksporter_punkt_opslag in Hstep as (val & Hval & ->).
    apply NoDup_cons in Hnd as [Hnotin Hnd].
    rewrite dict_set_fresh in Hrest by (apply Hfresh; left).
    apply IH in Hrest; [exact Hrest | assumption | |].
    + intros i Hi. rewrite map_app. simpl. intros Hin.
      apply elem_of_app in Hin as [Hin | Hin].
      * apply (Hfresh i); [right; assumption | assumption].
      * apply list_elem_of_singleton in Hin. subst i. contradiction.
    + apply Forall_app. split; [assumption |].
      constructor; [| constructor]. simpl. eauto.
Qed.

Lemma sorted_Sorted punkter : Sorted String.le (sorted punkter).
Proof. apply Sorted_merge_sort. apply _. Qed.

(** X6: when the first loop of [eksporter] ends normally it has printed
    nothing, the keys of the dict are the identifiers of the set in
    ascending order, each once, and the dict maps every identifier to the
    tuple the database gives for that very identifier (longitude, latitude,
    height, uncertainty); an ident outside the set is no key. *)
Theorem eksporter_punkter_dict w koteid punkter tr punktinfo :
  eksporter_punkter w koteid (sorted punkter) [] = (tr, inr punktinfo) ->
  tr = [] /\
  map fst punktinfo = sorted punkter /\
  Sorted String.le (map fst punktinfo) /\
  NoDup (map fst punktinfo) /\
  (forall ident, ident ∈ punkter ->
     exists val, dict_get punktinfo ident = Some (Some val) /\ opslag w koteid ident val) /\
  (forall ident, ident ∉ punkter -> dict_get punktinfo ident = None).
Proof.
  intros Hrun.
  destruct (eksporter_punkter_sorted _ _ _ _ _ Hrun) as (-> & Hkeys & _).
  assert (Hnd : NoDup (map fst punktinfo)) by (rewrite Hkeys; apply sorted_NoDup).
  apply eksporter_punkter_opslag in Hrun;
    [| apply sorted_NoDup | intros i _; apply not_elem_of_nil | constructor].
  split; [reflexivity |]. split; [exact Hkeys |].
  split; [rewrite Hkeys; apply sorted_Sorted |]. split; [exact Hnd |]. split.
  - intros ident Hin.
    assert (Hkey : ident ∈ map fst punktinfo).
    { rewrite Hkeys, sorted_Permutation. apply elem_of_elements. exact Hin. }
    apply list_elem_of_fmap in Hkey as ([k v] & Hk & Hitem). simpl in Hk. subst k.
    rewrite Forall_forall in Hrun. destruct (Hrun _ Hitem) as (val & Hv & Hops).
    simpl in Hv, Hops. subst v. exists val. split; [| exact Hops].
    apply dict_get_elem; assumption.
  - intros ident Hnotin. apply dict_get_absent. rewrite Hkeys, sorted_Permutation.
    intros Hin. apply Hnotin. apply elem_of_elements. exact Hin.
Qed.

Lemma eksporter_punkter_dict_witness :
  exists punktinfo,
    eksporter_punkter verden_eks dvr90_id (sorted punkter_eks) [] = ([], inr punktinfo) /\
    map fst punktinfo = ["G.1"; "P1"; "P2"] /\
    dict_get punktinfo "G.1"
    = Some (Some [PyFloat 12.5; PyFloat 55.75; PyFloat 31.5; PyFloat 0.25]) /\
    (forall ident, ident ∈ punkter_eks ->
       exists val, dict_get punktinfo ident = Some (Some val)
                   /\ opslag verden_eks dvr90_id ident val).
Proof.
  eexists. split; [vm_compute; reflexivity |].
  split; [reflexivity |]. split; [reflexivity |].
  refine (proj1 (proj2 (proj2 (proj2 (proj2
            (eksporter_punkter_dict verden_eks dvr90_id punkter_eks [] _ _)))))).
  vm_compute. reflexivity.
Defined.

(** *** Nothing is written before all points are resolved *)

Lemma eksporter_punkter_resolved w koteid punkter tr punktinfo :
  eksporter_punkter w koteid (sorted punkter) [] = (tr, inr punktinfo) ->
  map fst punktinfo = sorted punkter /\
  Forall (fun item : string * option (list pynum) =>
            exists val, item.2 = Some val /\ opslag w koteid item.1 val) punktinfo.
Proof.
  intros Hrun. destruct (eksporter_punkter_sorted _ _ _ _ _ Hrun) as (_ & Hkeys & _).
  split; [exact Hkeys |].
  apply eksporter_punkter_opslag in Hrun;
    [exact Hrun | apply sorted_NoDup | intros i _; apply not_elem_of_nil | constructor].
Qed.

(** X7: when the database does not give a complete tuple for some
    identifier of the set (the point is unknown, it has no geometry, or
    [eval] does not make two numbers of the geometry), [eksporter] ends
    with an exception and has touched no file: no output file is opened
    before every point is resolved. *)
Theorem eksporter_unresolved_no_output w output observationer punkter koteid ident :
  ident ∈ punkter ->
  (forall val, ~ opslag w koteid ident val) ->
  (exists e, outcome (eksporter w output observationer punkter koteid) = inl e) /\
  file_events (events (eksporter w output observationer punkter koteid)) = [].
Proof.
  intros Hin Hnone. rewrite eksporter_stages.
  pose proof (eksporter_punkter_file_events w koteid (sorted punkter) []) as Hfiles.
  destruct (eksporter_punkter w koteid (sorted punkter) []) as [tr0 [e | punktinfo]] eqn:Hrun.
  - split; [exists e; reflexivity | exact Hfiles].
  - exfalso. destruct (eksporter_punkter_resolved _ _ _ _ _ Hrun) as [Hkeys Hall].
    assert (Hkey : ident ∈ map fst punktinfo).
    { rewrite Hkeys, sorted_Permutation. apply elem_of_elements. exact Hin. }
    apply list_elem_of_fmap in Hkey as ([k v] & Hk & Hitem). simpl in Hk. subst k.
    rewrite Forall_forall in Hall. destruct (Hall _ Hitem) as (val & _ & Hops).
    exact (Hnone val Hops).
Qed.

Lemma eksporter_unresolved_no_output_witness :
  outcome (eksporter verden_eks "ud.xml" ["G.1 UKENDT a b 4000 1.25 J1 c 0"]
             {["G.1"; "UKENDT"]} dvr90_id)
  = inl AttributeError /\
  (exists e,
     outcome (eksporter verden_eks "ud.xml" ["G.1 UKENDT a b 4000 1.25 J1 c 0"]
                {["G.1"; "UKENDT"]} dvr90_id) = inl e) /\
  file_events (events (eksporter verden_eks "ud.xml" ["G.1 UKENDT a b 4000 1.25 J1 c 0"]
                         {["G.1"; "UKENDT"]} dvr90_id)) = [].
Proof.
  split; [vm_compute; reflexivity |].
  apply (eksporter_unresolved_no_output verden_eks "ud.xml"
           ["G.1 UKENDT a b 4000 1.25 J1 c 0"] {["G.1"; "UKENDT"]} dvr90_id "UKENDT").
  - set_solver.
  - intros val (pinfo & geometri & g0 & g1 & Hpi & _). vm_compute in Hpi.
    discriminate Hpi.
Defined.

(** *** The features of the points *)

Lemma punkt_feature_opslag w koteid punktinfo pf :
  Forall (fun item : string * option (list pynum) =>
            exists val, item.2 = Some val /\ opslag w koteid item.1 val) punktinfo ->
  list_of (punkt_feature punktinfo) = inr pf ->
  map pf_id pf = map fst punktinfo /\
  Forall (fun f => opslag w koteid (pf_id f)
                     [(pf_coordinates f).1; (pf_coordinates f).2; pf_H f; pf_sH f]) pf.
Proof.
  intros Hall. revert pf.
  induction Hall as [| [key val] punktinfo (v & Hv & Hops) _ IH]; intros pf.
  - simpl. intros [= <-]. split; constructor.
  - simpl in Hv, Hops. subst val.
    pose proof Hops as (pinfo & geometri & g0 & g1 & _ & _ & _ & ->).
    unfold punkt_feature in *. simpl.
    destruct (list_of (map punkt_feature_1 punktinfo)) as [e | pf'];
      [discriminate |].
    intros [= <-]. destruct (IH pf' eq_refl) as [Hids Hfs].
    simpl. split; [rewrite Hids; reflexivity |].
    constructor; [exact Hops | exact Hfs].
Qed.

Lemma elem_of_file_events ev tr :
  ev ∈ tr -> (forall msg, ev <> Print msg) -> ev ∈ file_events tr.
Proof.
  intros Hin Hnp. induction tr as [| ev' tr IH]; [exact Hin |].
  apply elem_of_cons in Hin as [-> | Hin].
  - destruct ev'; simpl; try (left; fail). destruct (Hnp msg). reflexivity.
  - destruct ev'; simpl; [apply IH; exact Hin | right; apply IH; exact Hin ..].
Qed.

(** X8: whenever a run of [eksporter] dumps a collection of point features
    to [punkter.geojson], the collection has one feature per identifier of
    the set, in ascending order of the identifiers, and each feature
    carries the longitude, latitude, height and uncertainty that the
    database gives for its own [id]. *)
Theorem eksporter_point_features w output observationer punkter koteid pf :
  Dump "punkter.geojson" (PunktFeatures pf)
    ∈ events (eksporter w output observationer punkter koteid) ->
  map pf_id pf = sorted punkter /\
  Sorted String.le (map pf_id pf) /\
  Forall (fun f => opslag w koteid (pf_id f)
                     [(pf_coordinates f).1; (pf_coordinates f).2; pf_H f; pf_sH f]) pf.
Proof.
  rewrite eksporter_stages.
  pose proof (eksporter_punkter_file_events w koteid (sorted punkter) []) as Hfiles.
  destruct (eksporter_punkter w koteid (sorted punkter) []) as [tr0 [e | punktinfo]] eqn:Hrun.
  { intros Hin. apply elem_of_file_events in Hin; [| discriminate].
    unfold events in *. simpl in *. rewrite Hfiles in Hin.
    apply elem_of_nil in Hin. contradiction. }
  destruct (eksporter_punkter_resolved _ _ _ _ _ Hrun) as [Hkeys Hall].
  destruct (eksporter_punkter_sorted _ _ _ _ _ Hrun) as (-> & _ & _).
  assert (Hgoal : forall pf0, list_of (punkt_feature punktinfo) = inr pf0 ->
            pf = pf0 ->
            map pf_id pf = sorted punkter /\
            Sorted String.le (map pf_id pf) /\
            Forall (fun f => opslag w koteid (pf_id f)
                       [(pf_coordinates f).1; (pf_coordinates f).2; pf_H f; pf_sH f]) pf).
  { intros pf0 Hpf ->. destruct (punkt_feature_opslag _ _ _ _ Hall Hpf) as [Hids Hfs].
    rewrite Hids, Hkeys. split; [reflexivity |]. split; [apply sorted_Sorted | exact Hfs]. }
  destruct (open_fejl w "punkter.geojson") as [e |].
  { unfold events. simpl. intros Hin. apply elem_of_nil in Hin. contradiction. }
  destruct (list_of (punkt_feature punktinfo)) as [e | pf0] eqn:Hpf.
  { unfold events. simpl. intros Hin. apply list_elem_of_singleton in Hin. discriminate Hin. }
  assert (Hfour : forall evs,
            Dump "punkter.geojson" (PunktFeatures pf)
              ∈ Open "punkter.geojson" :: Dump "punkter.geojson" (PunktFeatures pf0) :: evs ->
            Forall (fun ev => forall c, ev <> Dump "punkter.geojson" (PunktFeatures c)) evs ->
            pf = pf0).
  { intros evs Hin Hevs.
    apply elem_of_cons in Hin as [Hin | Hin]; [discriminate Hin |].
    apply elem_of_cons in Hin as [Hin | Hin]; [injection Hin as ->; reflexivity |].
    rewrite Forall_forall in Hevs. destruct (Hevs _ Hin pf). reflexivity. }
  assert (Hdone : forall evs,
            Forall (fun ev => forall c, ev <> Dump "punkter.geojson" (PunktFeatures c)) evs ->
            Dump "punkter.geojson" (PunktFeatures pf)
              ∈ events (([] : list event)
                        ++ Open "punkter.geojson"
                           :: Dump "punkter.geojson" (PunktFeatures pf0) :: evs,
                        (inl IndexError : exn + unit)) ->
            map pf_id pf = sorted punkter /\
            Sorted String.le (map pf_id pf) /\
            Forall (fun f => opslag w koteid (pf_id f)
                       [(pf_coordinates f).1; (pf_coordinates f).2; pf_H f; pf_sH f]) pf).
  { intros evs Hevs Hin. apply (Hgoal pf0 eq_refl). exact (Hfour evs Hin Hevs). }
  destruct (open_fejl w "observationer.geojson") as [e |].
  { apply (Hdone []). constructor. }
  destruct (list_of (obs_feature punktinfo observationer)) as [e | of_].
  { apply (Hdone [Open "observationer.geojson"]). repeat constructor; discriminate. }
  destruct (open_fejl w output) as [e |].
  { apply (Hdone [Open "observationer.geojson";
                  Dump "observationer.geojson" (ObsFeatures of_)]).
    repeat constructor; discriminate. }
  destruct (gama_blok_uniform punktinfo observationer) as (ts & r & Hgama).
  rewrite Hgama.
  apply (Hdone (Open "observationer.geojson"
                :: Dump "observationer.geojson" (ObsFeatures of_)
                :: Open output :: map (Write output) ts)).
  repeat (constructor; [discriminate |]).
  apply Forall_forall. intros ev Hev c.
  apply list_elem_of_fmap in Hev as (t & -> & _). discriminate.
Qed.

Lemma eksporter_point_features_witness :
  let pf :=
    [ {| pf_id := "G.1"; pf_H := PyFloat 31.5; pf_sH := PyFloat 0.25;
         pf_coordinates := (PyFloat 12.5, PyFloat 55.75) |};
      {| pf_id := "P1"; pf_H := PyInt 0; pf_sH := PyInt 0;
         pf_coordinates := (PyFloat 12.25, PyFloat 55.5) |};
      {| pf_id := "P2"; pf_H := PyInt 0; pf_sH := PyInt 0;
         pf_coordinates := (PyInt 10, PyInt 57) |} ] in
  Dump "punkter.geojson" (PunktFeatures pf)
    ∈ events (eksporter verden_eks "ud.xml" observationer_eks punkter_eks dvr90_id) /\
  map pf_id pf = sorted punkter_eks /\
  Sorted String.le (map pf_id pf) /\
  Forall (fun f => opslag verden_eks dvr90_id (pf_id f)
                     [(pf_coordinates f).1; (pf_coordinates f).2; pf_H f; pf_sH f]) pf.
Proof.
  intros pf.
  assert (Hin : Dump "punkter.geojson" (PunktFeatures pf)
                  ∈ events (eksporter verden_eks "ud.xml" observationer_eks punkter_eks
                              dvr90_id)).
  { vm_compute. right. left. }
  split; [exact Hin |].
  exact (eksporter_point_features verden_eks "ud.xml" observationer_eks punkter_eks
           dvr90_id pf Hin).
Defined.

(** *** The complete run *)

Lemma list_of_inr {A} (g : generator A) l : list_of g = inr l -> g = map inr l.
Proof.
  revert l. induction g as [| r g IH]; intros l; simpl.
  - intros [= <-]. reflexivity.
  - destruct r as [e | a]; [discriminate |]. simpl.
    destruct (list_of g) as [e | l']; [discriminate |]. simpl.
    intros [= <-]. simpl. rewrite (IH l' eq_refl). reflexivity.
Qed.

Lemma list_of_map {A B} (f : A -> R B) (l : list A) (l' : list B) :
  list_of (map f l) = inr l' -> Forall2 (fun a b => f a = inr b) l l'.
Proof.
  revert l'. induction l as [| a l IH]; intros l'; simpl.
  - intros [= <-]. constructor.
  - destruct (f a) as [e | b] eqn:Hfa; [discriminate |]. simpl.
    destruct (list_of (map f l)) as [e | bs]; [discriminate |]. simpl.
    intros [= <-]. constructor; [exact Hfa | apply IH; reflexivity].
Qed.

Lemma bind_known {A B} (m : M A) tr a (k : A -> M B) :
  m = (tr, inr a) -> bind m k = (tr ++ (k a).1, (k a).2).
Proof. intros ->. apply bind_inr_eq. Qed.

(** The block that writes the Gama file, for a dict as the first loop
    builds it: everything up to the header of the observations is written,
    then comes the loop over the observations and the postamble. *)
Lemma gama_blok_split output punktinfo observationer :
  velformet punktinfo ->
  gama_blok output punktinfo observationer
  = (map (Write output)
          (xml_preamble_text :: xml_description_text "bla bla bla"
           :: xml_fixed_points_text
           :: point_elements true (filter (fun kz => fast kz.1) (koter punktinfo))
           ++ xml_adjusted_points_text
           :: point_elements false (filter (fun kz => ~ fast kz.1) (koter punktinfo))
           ++ [xml_observations_text])
     ++ events (do_ for_gen (obs_feature punktinfo observationer) (xml_obs output);
                xml_postamble output),
     outcome (do_ for_gen (obs_feature punktinfo observationer) (xml_obs output);
              xml_postamble output)).
Proof.
  intros Hwf. unfold gama_blok.
  rewrite (bind_known (xml_preamble output) _ tt _ eq_refl).
  rewrite (bind_known (xml_description output "bla bla bla") _ tt _ eq_refl).
  rewrite (bind_known (xml_fixed_points output) _ tt _ eq_refl).
  rewrite (bind_known _ _ tt _
             (for_each_points output true (fun key => startswith key "G.") _ Hwf)).
  rewrite (bind_known (xml_adjusted_points output) _ tt _ eq_refl).
  rewrite (bind_known _ _ tt _
             (for_each_points output false (fun key => negb (startswith key "G.")) _ Hwf)).
  rewrite (bind_known (xml_observations output) _ tt _ eq_refl).
  cbn [fst snd]. unfold events, outcome. f_equal.
  assert (Hfilter : filter (fun kz : string * pynum => negb (startswith kz.1 "G.") = true)
                      (koter punktinfo)
                    = filter (fun kz => ~ fast kz.1) (koter punktinfo)).
  { apply list_filter_iff. intros [key z_]. unfold fast. simpl.
    destruct (startswith key "G."); simpl; split; congruence. }
  rewrite Hfilter. unfold fast.
  repeat first [rewrite map_app | rewrite <- app_assoc | progress cbn [app map]].
  reflexivity.
Qed.

(** A loop over given features that ends normally has written one [dh]
    element for each, in order. *)
Lemma for_gen_xml_obs_success output fs tr :
  for_gen (map inr fs) (xml_obs output) = (tr, inr tt) ->
  exists stdevs,
    Forall2 (fun f sd => xml_obs_stdev f = inr sd) fs stdevs /\
    tr = map (Write output) (zip_with xml_obs_text fs stdevs).
Proof.
  revert tr. induction fs as [| f fs IH]; intros tr; cbn [map for_gen].
  - intros [= <-]. exists []. split; constructor.
  - rewrite bind_lift_inr. intros Hrun.
    apply bind_inr in Hrun as (tr1 & [] & tr2 & Hobs & Hrest & ->).
    unfold xml_obs in Hobs.
    destruct (xml_obs_stdev f) as [e | sd] eqn:Hsd; [discriminate |].
    rewrite bind_lift_inr in Hobs. injection Hobs as <-.
    destruct (IH _ Hrest) as (stdevs & Hall & ->).
    exists (sd :: stdevs). split; [constructor; assumption | reflexivity].
Qed.

(** X9: a run of [eksporter] that ends normally has done exactly this, in
    order: dumped the point features to [punkter.geojson], dumped one
    feature per observation line to [observationer.geojson], and written
    to [output] the preamble, the description, the fixed points, the
    adjusted points, one [dh] element for each of the dumped observation
    features in the same order, and the postamble that closes the
    document. *)
Theorem eksporter_complete_document w output observationer punkter koteid :
  outcome (eksporter w output observationer punkter koteid) = inr tt ->
  exists punktinfo pf of_ stdevs,
    eksporter_punkter w koteid (sorted punkter) [] = ([], inr punktinfo) /\
    list_of (punkt_feature punktinfo) = inr pf /\
    Forall2 (fun obs f => obs_feature_1 punktinfo obs = inr f) observationer of_ /\
    Forall2 (fun f sd => xml_obs_stdev f = inr sd) of_ stdevs /\
    events (eksporter w output observationer punkter koteid)
    = [Open "punkter.geojson"; Dump "punkter.geojson" (PunktFeatures pf);
       Open "observationer.geojson"; Dump "observationer.geojson" (ObsFeatures of_);
       Open output]
      ++ map (Write output)
           (xml_preamble_text :: xml_description_text "bla bla bla"
            :: xml_fixed_points_text
            :: point_elements true (filter (fun kz => fast kz.1) (koter punktinfo))
            ++ xml_adjusted_points_text
            :: point_elements false (filter (fun kz => ~ fast kz.1) (koter punktinfo))
            ++ xml_observations_text
            :: zip_with xml_obs_text of_ stdevs ++ [xml_postamble_text]).
Proof.
  rewrite eksporter_stages.
  destruct (eksporter_punkter w koteid (sorted punkter) []) as [tr0 [e | punktinfo]] eqn:Hrun;
    [discriminate |].
  destruct (eksporter_punkter_sorted _ _ _ _ _ Hrun) as (-> & _ & Hwf).
  destruct (open_fejl w "punkter.geojson") as [e |]; [discriminate |].
  destruct (list_of (punkt_feature punktinfo)) as [e | pf] eqn:Hpf; [discriminate |].
  destruct (open_fejl w "observationer.geojson") as [e |]; [discriminate |].
  destruct (list_of (obs_feature punktinfo observationer)) as [e | of_] eqn:Hof;
    [discriminate |].
  destruct (open_fejl w output) as [e |]; [discriminate |].
  rewrite (gama_blok_split output punktinfo observationer Hwf).
  rewrite (list_of_inr _ _ Hof).
  unfold outcome, events. cbn [fst snd].
  destruct (for_gen (map inr of_) (xml_obs output)) as [trg [e | []]] eqn:Hgen;
    [discriminate |].
  intros _. destruct (for_gen_xml_obs_success _ _ _ Hgen) as (stdevs & Hsd & ->).
  exists punktinfo, pf, of_, stdevs.
  split; [reflexivity |]. split; [exact Hpf |].
  split; [apply list_of_map; exact Hof |]. split; [exact Hsd |].
  rewrite bind_inr_eq. unfold xml_postamble, emit. cbn [fst snd app].
  repeat first [rewrite map_app | rewrite <- app_assoc | progress cbn [app map]].
  reflexivity.
Qed.

Lemma eksporter_complete_document_witness :
  outcome (eksporter verden_eks "ud.xml" observationer_eks punkter_eks dvr90_id) = inr tt /\
  exists punktinfo pf of_ stdevs,
    eksporter_punkter verden_eks dvr90_id (sorted punkter_eks) [] = ([], inr punktinfo) /\
    list_of (punkt_feature punktinfo) = inr pf /\
    Forall2 (fun obs f => obs_feature_1 punktinfo obs = inr f) observationer_eks of_ /\
    Forall2 (fun f sd => xml_obs_stdev f = inr sd) of_ stdevs /\
    events (eksporter verden_eks "ud.xml" observationer_eks punkter_eks dvr90_id)
    = [Open "punkter.geojson"; Dump "punkter.geojson" (PunktFeatures pf);
       Open "observationer.geojson"; Dump "observationer.geojson" (ObsFeatures of_);
       Open "ud.xml"]
      ++ map (Write "ud.xml")
           (xml_preamble_text :: xml_description_text "bla bla bla"
            :: xml_fixed_points_text
            :: point_elements true (filter (fun kz => fast kz.1) (koter punktinfo))
            ++ xml_adjusted_points_text
            :: point_elements false (filter (fun kz => ~ fast kz.1) (koter punktinfo))
            ++ xml_observations_text
            :: zip_with xml_obs_text of_ stdevs ++ [xml_postamble_text]).
Proof.
  assert (Hok : outcome (eksporter verden_eks "ud.xml" observationer_eks punkter_eks
                           dvr90_id) = inr tt) by (vm_compute; reflexivity).
  split; [exact Hok |].
  exact (eksporter_complete_document verden_eks "ud.xml" observationer_eks punkter_eks
           dvr90_id Hok).
Defined.

(** *** The observations that reach [obs_feature] *)

Lemma obs_ok_mono punkter punkter' obs :
  punkter ⊆ punkter' -> obs_ok punkter obs -> obs_ok punkter' obs.
Proof.
  intros Hsub (d0 & d1 & d2 & d3 & d4 & d5 & d6 & d7 & d8 & Hsplit & H0 & H1).
  exists d0, d1, d2, d3, d4, d5, d6, d7, d8. set_solver.
Qed.

Lemma gamaficer_linje_inv st line st' :
  Forall (obs_ok st.2) st.1 ->
  gamaficer_linje st line = inr st' ->
  Forall (obs_ok st'.2) st'.1.
Proof.
  destruct st as [observationer punkter]. cbn [fst snd]. intros Hinv.
  unfold gamaficer_linje. destruct line as [| c rest]; [discriminate |].
  destruct (Ascii.eqb "#" c); cbn [negb]; [| intros [= <-]; exact Hinv].
  destruct (split (strip (lstrip_chars "#" (String c rest))))
    as [| t0 [| t1 [| t2 [| t3 [| t4 [| t5 [| t6 [| t7 [| t8 [| t9 l]]]]]]]]]] eqn:Hsplit;
    try discriminate.
  intros [= <-]. cbn [fst snd]. apply Forall_app. split.
  - eapply Forall_impl; [exact Hinv |]. intros obs. apply obs_ok_mono. set_solver.
  - constructor; [| constructor].
    exists t0, t1, t2, t3, t4, t5, t6, t7, t8. split; [exact Hsplit | set_solver].
Qed.

Lemma gamaficer_linjer_inv st ls :
  Forall (obs_ok st.2) st.1 ->
  Forall (obs_ok (gamaficer_linjer st ls).1.2) (gamaficer_linjer st ls).1.1.
Proof.
  revert st. induction ls as [| line ls IH]; intros st Hinv; simpl; [exact Hinv |].
  destruct (gamaficer_linje st line) as [e | st'] eqn:Hline; [exact Hinv |].
  apply IH. exact (gamaficer_linje_inv st line st' Hinv Hline).
Qed.

Lemma gamaficer_filer_inv st filnavne :
  Forall (obs_ok st.2) st.1 ->
  Forall (obs_ok (gamaficer_filer st filnavne).1.2) (gamaficer_filer st filnavne).1.1.
Proof.
  revert st. induction filnavne as [| f filnavne IH]; intros st Hinv; simpl; [exact Hinv |].
  pose proof (gamaficer_linjer_inv st (lines f) Hinv) as Hf.
  destruct (gamaficer_linjer st (lines f)) as [st' [e |]]; [exact Hf |].
  apply IH. exact Hf.
Qed.

Lemma eksporter_punkter_lookup w koteid punkter tr punktinfo ident :
  eksporter_punkter w koteid (sorted punkter) [] = (tr, inr punktinfo) ->
  ident ∈ punkter ->
  exists val, dict_get punktinfo ident = Some (Some val) /\ opslag w koteid ident val.
Proof.
  intros Hrun Hin. destruct (eksporter_punkter_resolved _ _ _ _ _ Hrun) as [Hkeys Hall].
  assert (Hnd : NoDup (map fst punktinfo)) by (rewrite Hkeys; apply sorted_NoDup).
  assert (Hkey : ident ∈ map fst punktinfo).
  { rewrite Hkeys, sorted_Permutation. apply elem_of_elements. exact Hin. }
  apply list_elem_of_fmap in Hkey as ([k v] & Hk & Hitem). simpl in Hk. subst k.
  rewrite Forall_forall in Hall. destruct (Hall _ Hitem) as (val & Hv & Hops).
  simpl in Hv, Hops. subst v. exists val. split; [| exact Hops].
  apply dict_get_elem; assumption.
Qed.

(** X10: the observations that the reading loop of [gamaficer] has stored,
    whether it read all lines or stopped at a bad one, fit the dict that
    [eksporter] builds from the identifiers stored with them: for each of
    them [obs_feature] finds nine tokens and both identifiers as keys, so
    its assertion and its dict subscripts never fail, and the only
    exceptions left are those of the number conversions.  A feature it
    yields carries, for both ends, the longitude and latitude of the tuple
    the database gives for that identifier. *)
Theorem gamaficer_observations_resolved w filnavne koteid tr punktinfo :
  eksporter_punkter w koteid (sorted (gamaficer_filer ([], ∅) filnavne).1.2) []
  = (tr, inr punktinfo) ->
  Forall (fun obs =>
            (forall e, obs_feature_1 punktinfo obs = inl e ->
                       e = ValueError \/ e = OverflowError) /\
            (forall f, obs_feature_1 punktinfo obs = inr f ->
               exists fra_ til_,
                 opslag w koteid (fra f) fra_ /\ opslag w koteid (til f) til_ /\
                 float_at fra_ 0 = inr (coordinates f).1.1 /\
                 float_at fra_ 1 = inr (coordinates f).1.2 /\
                 float_at til_ 0 = inr (coordinates f).2.1 /\
                 float_at til_ 1 = inr (coordinates f).2.2))
         (gamaficer_filer ([], ∅) filnavne).1.1.
Proof.
  intros Hrun.
  eapply Forall_impl; [apply (gamaficer_filer_inv ([], ∅) filnavne); constructor |].
  intros obs (d0 & d1 & d2 & d3 & d4 & d5 & d6 & d7 & d8 & Hsplit & H0 & H1).
  destruct (eksporter_punkter_lookup _ _ _ _ _ d0 Hrun H0) as (fra_ & Hfra & Hopf).
  destruct (eksporter_punkter_lookup _ _ _ _ _ d1 Hrun H1) as (til_ & Htil & Hopt).
  unfold obs_feature_1. rewrite Hsplit, Hfra, Htil. cbn [or_raise rbind].
  destruct (float_of_str d4) as [x4 |]; cbn [or_raise rbind];
    [| split; [intros e [= <-]; auto | discriminate]].
  destruct (float_of_str (reparer d5)) as [x5 |]; cbn [or_raise rbind];
    [| split; [intros e [= <-]; auto | discriminate]].
  destruct (int_of_str d8) as [n8 |]; cbn [or_raise rbind];
    [| split; [intros e [= <-]; auto | discriminate]].
  assert (Hfloat : forall v i e, float_at v i = inl e ->
                     (exists x, index v i = inr x) -> e = OverflowError).
  { intros v i e. unfold float_at. intros He [x Hx]. rewrite Hx in He.
    cbn [rbind] in He. destruct (float_of_num x); [discriminate |].
    injection He as <-. reflexivity. }
  assert (Hfour : forall ident val, opslag w koteid ident val ->
                    (exists x, index val 0 = inr x) /\ (exists x, index val 1 = inr x)).
  { intros ident val (pinfo & geometri & g0 & g1 & _ & _ & _ & ->).
    split; eexists; reflexivity. }
  destruct (Hfour _ _ Hopf) as [Hf0 Hf1]. destruct (Hfour _ _ Hopt) as [Ht0 Ht1].
  destruct (float_at fra_ 0) as [e0 | f0] eqn:E0; cbn [rbind];
    [split; [intros e [= <-]; right; eapply Hfloat; eauto | discriminate] |].
  destruct (float_at fra_ 1) as [e1 | f1] eqn:E1; cbn [rbind];
    [split; [intros e [= <-]; right; eapply Hfloat; eauto | discriminate] |].
  destruct (float_at til_ 0) as [e2 | t0] eqn:E2; cbn [rbind];
    [split; [intros e [= <-]; right; eapply Hfloat; eauto | discriminate] |].
  destruct (float_at til_ 1) as [e3 | t1] eqn:E3; cbn [rbind];
    [split; [intros e [= <-]; right; eapply Hfloat; eauto | discriminate] |].
  split; [discriminate |]. intros f [= <-]. cbn.
  exists fra_, til_. auto 10.
Qed.

Lemma gamaficer_observations_resolved_witness :
  (gamaficer_filer ([], ∅) [fil_eks; fil_kort_sidst]).1.1
  = observationer_eks ++ ["P1 P2 a b 0 -0.5-557 J2 c 10"] /\
  exists punktinfo,
    eksporter_punkter verden_eks dvr90_id
      (sorted (gamaficer_filer ([], ∅) [fil_eks; fil_kort_sidst]).1.2) []
    = ([], inr punktinfo) /\
    Forall (fun obs =>
              (forall e, obs_feature_1 punktinfo obs = inl e ->
                         e = ValueError \/ e = OverflowError) /\
              (forall f, obs_feature_1 punktinfo obs = inr f ->
                 exists fra_ til_,
                   opslag verden_eks dvr90_id (fra f) fra_ /\
                   opslag verden_eks dvr90_id (til f) til_ /\
                   float_at fra_ 0 = inr (coordinates f).1.1 /\
                   float_at fra_ 1 = inr (coordinates f).1.2 /\
                   float_at til_ 0 = inr (coordinates f).2.1 /\
                   float_at til_ 1 = inr (coordinates f).2.2))
           (gamaficer_filer ([], ∅) [fil_eks; fil_kort_sidst]).1.1.
Proof.
  split; [vm_compute; reflexivity |].
  eexists. split; [vm_compute; reflexivity |].
  apply (gamaficer_observations_resolved verden_eks [fil_eks; fil_kort_sidst] dvr90_id []).
  vm_compute. reflexivity.
Defined.

(** *** The text of a geometry *)

Lemma replace_char_app a b s t :
  replace_char a b (s +:+ t) = replace_char a b s +:+ replace_char a b t.
Proof.
  induction s as [| c s IH]; [reflexivity |].
  rewrite append_cons. cbn [replace_char]. rewrite IH. reflexivity.
Qed.

Lemma replace_char_absent a b s : mem_char a s = false -> replace_char a b s = s.
Proof.
  induction s as [| c s IH]; [reflexivity |]. cbn [mem_char replace_char].
  rewrite (Ascii.eqb_sym c a). destruct (Ascii.eqb a c); [discriminate |].
  intros H. rewrite (IH H). reflexivity.
Qed.

Lemma lstrip_chars_point rest :
  lstrip_chars "POINT " ("POINT (" +:+ rest) = "(" +:+ rest.
Proof. reflexivity. Qed.

(** X11: for a geometry whose text is [POINT (a b)], with no blank in [a]
    and in [b], [punkt_geometri] hands the text [(a,b)] to [eval]: when
    [eval] makes two values of it, these are the result and nothing is
    printed; when it makes another number of values, the function raises
    the [AssertionError] that names the geometry. *)
Theorem punkt_geometri_wkt w ident pinfo a b geo :
  hent_geometri_objekt w (punktid pinfo) = Some ("POINT (" +:+ a +:+ " " +:+ b +:+ ")") ->
  mem_char " " a = false ->
  mem_char " " b = false ->
  py_eval w ("(" +:+ a +:+ "," +:+ b +:+ ")") = inr geo ->
  punkt_geometri w ident (Some pinfo)
  = ([], if (length geo =? 2)%nat then inr geo
         else inl (AssertionError
                     ("Bad geometry format: " +:+ "POINT (" +:+ a +:+ " " +:+ b +:+ ")"))).
Proof.
  intros Hgeo Ha Hb Heval. unfold punkt_geometri. cbn [or_raise].
  rewrite bind_lift_inr, Hgeo, lstrip_chars_point.
  change ("(" +:+ a +:+ " " +:+ b +:+ ")") with (String "(" (a +:+ String " " (b +:+ ")"))).
  cbn [replace_char]. rewrite replace_char_app. cbn [replace_char].
  rewrite replace_char_app, (replace_char_absent _ _ a Ha), (replace_char_absent _ _ b Hb).
  change (Ascii.eqb "(" " ") with false. change (Ascii.eqb " " " ") with true.
  cbn iota.
  change (String "(" (a +:+ String "," (b +:+ replace_char " " "," ")")))
    with ("(" +:+ a +:+ "," +:+ b +:+ ")").
  rewrite Heval, bind_lift_inr.
  destruct (length geo =? 2)%nat; reflexivity.
Qed.

Lemma punkt_geometri_wkt_witness :
  punkt_geometri verden_eks "G.1" (Some {| punktid := "id-G1"; koordinater := koordinater_G1 |})
  = ([], inr [PyFloat 12.5; PyFloat 55.75]).
Proof.
  exact (punkt_geometri_wkt verden_eks "G.1"
           {| punktid := "id-G1"; koordinater := koordinater_G1 |}
           "12.5" "55.75" [PyFloat 12.5; PyFloat 55.75]
           eq_refl eq_refl eq_refl eq_refl).
Defined.

(** *** A run that fails while the Gama file is written *)




